(** * MUBen (mubench): configuration, dataset cache and GROVER loss

    A shallow embedding of the plumbing of the benchmark:
    - [mubench/base/args.py]: the [Arguments] dataclass, its
      [__post_init__], and the [Config] methods [n_lbs], [d_feature],
      [get_meta], [save] and [load];
    - [mubench/dnn/dataset/dataset.py]: [Dataset.prepare] with its cache
      ([save], [load], [read_csv], [masks], [get_instances]);
    - [mubench/grover/train.py]: [Trainer.get_loss] and
      [Trainer.get_distance_loss].

    Python exceptions are values of [exn] carried by the [result] monad,
    the file system is an explicit finite map that the I/O methods thread
    through, and instance attributes live in a finite map from attribute
    name to value, as in the instance [__dict__]. *)

From Stdlib Require Import ZArith QArith Qfield Lqa String Ascii List Bool Lia DecimalString.
From stdpp Require Import base option list gmap strings.

#[local] Set Warnings "-register-all,-notation-for-abbreviation".
Local Open Scope Z_scope.

(** ** Exceptions and the error monad *)

(** The exception classes this code can raise. [AssertionError] is what a
    failing [assert cond, msg] raises, whatever object [msg] is. *)
Inductive exn : Type :=
| FileNotFoundError
| IsADirectoryError
| NotADirectoryError
| FileExistsError
| AssertionError
| AttributeError
| TypeError
| ValueError
| JSONDecodeError
| UnpicklingError
| ParserError
| RuntimeError.

Inductive result (A : Type) : Type :=
| Ok (a : A)
| Raise (e : exn).

Arguments Ok {A} a.
Arguments Raise {A} e.

#[global] Instance result_ret : MRet result := fun A a => Ok a.
#[global] Instance result_bind : MBind result := fun A B f m =>
  match m with
  | Ok a => f a
  | Raise e => Raise e
  end.

#[global] Instance result_fmap : FMap result := fun A B f m =>
  match m with
  | Ok a => Ok (f a)
  | Raise e => Raise e
  end.

(** [try: m except AttributeError: pass], for a body that updates a state. *)
Definition except_AttributeError_pass {A} (m : result A) (unchanged : A) : result A :=
  match m with
  | Raise AttributeError => Ok unchanged
  | other => other
  end.

Definition is_Ok {A} (m : result A) : bool :=
  match m with Ok _ => true | Raise _ => false end.

(** ** [posixpath] *)

Module posixpath.

Definition sep : ascii := "/"%char.

Definition startswith_sep (s : string) : bool :=
  match s with
  | String c _ => Ascii.eqb c sep
  | EmptyString => false
  end.

Fixpoint endswith_sep (s : string) : bool :=
  match s with
  | EmptyString => false
  | String c EmptyString => Ascii.eqb c sep
  | String _ s' => endswith_sep s'
  end.

(** [a.split('/')] *)
Fixpoint split_sep (s : string) : list string :=
  match s with
  | EmptyString => [EmptyString]
  | String c s' =>
      if Ascii.eqb c sep then EmptyString :: split_sep s'
      else match split_sep s' with
           | [] => [String c EmptyString]
           | h :: t => String c h :: t
           end
  end.

(** ['/'.join(comps)] *)
Fixpoint join_sep (comps : list string) : string :=
  match comps with
  | [] => EmptyString
  | [c] => c
  | c :: rest => c +:+ String sep (join_sep rest)
  end.

(** One step of the loop of [posixpath.join]. *)
Definition join2 (path b : string) : string :=
  if startswith_sep b then b
  else if (String.eqb path EmptyString || endswith_sep path)%bool then path +:+ b
  else path +:+ String sep b.

(** [os.path.join(a, *p)] *)
Definition join (a : string) (p : list string) : string :=
  fold_left join2 p a.

(** The loop of [posixpath.normpath]; [new_comps] is kept reversed, so its
    head is [new_comps[-1]]. *)
Fixpoint normpath_comps (initial_slashes : nat) (comps new_comps : list string)
  : list string :=
  match comps with
  | [] => rev new_comps
  | comp :: rest =>
      if (String.eqb comp "" || String.eqb comp ".")%bool then
        normpath_comps initial_slashes rest new_comps
      else if (negb (String.eqb comp "..")
               || (Nat.eqb initial_slashes 0 && match new_comps with [] => true | _ => false end)
               || match new_comps with last :: _ => String.eqb last ".." | [] => false end)%bool
      then normpath_comps initial_slashes rest (comp :: new_comps)
      else normpath_comps initial_slashes rest (tl new_comps)
  end.

Definition initial_slashes (path : string) : nat :=
  match path with
  | String a (String b (String c _)) =>
      if Ascii.eqb a sep then
        if Ascii.eqb b sep then (if Ascii.eqb c sep then 1 else 2)%nat else 1%nat
      else 0%nat
  | String a (String b EmptyString) =>
      if Ascii.eqb a sep then (if Ascii.eqb b sep then 2 else 1)%nat else 0%nat
  | String a EmptyString => if Ascii.eqb a sep then 1%nat else 0%nat
  | EmptyString => 0%nat
  end.

Fixpoint slashes (n : nat) : string :=
  match n with
  | O => EmptyString
  | S n' => String sep (slashes n')
  end.

(** [os.path.normpath(path)] *)
Definition normpath (path : string) : string :=
  if String.eqb path "" then "."
  else
    let i := initial_slashes path in
    let p := slashes i +:+ join_sep (normpath_comps i (split_sep path) []) in
    if String.eqb p "" then "." else p.

(** [s.rstrip('/')] *)
Fixpoint rstrip_sep (s : string) : string :=
  match s with
  | EmptyString => EmptyString
  | String c s' =>
      match rstrip_sep s' with
      | EmptyString => if Ascii.eqb c sep then EmptyString else String c EmptyString
      | r => String c r
      end
  end.

(** [p[:i]] and [p[i:]] for [i = p.rfind('/') + 1]. *)
Fixpoint rsplit_sep (p : string) : string * string :=
  match p with
  | EmptyString => (EmptyString, EmptyString)
  | String c p' =>
      let '(h, t) := rsplit_sep p' in
      if (Ascii.eqb c sep || negb (String.eqb h ""))%bool then (String c h, t)
      else (EmptyString, String c t)
  end.

(** [os.path.split(p)]: the head loses its trailing slashes unless it
    consists of slashes only. *)
Definition split (p : string) : string * string :=
  let '(head, tail) := rsplit_sep p in
  let stripped := rstrip_sep head in
  (if String.eqb stripped "" then head else stripped, tail).

(** [os.path.dirname(p)] *)
Definition dirname (p : string) : string := fst (split p).

End posixpath.

(** ** Values *)

(** JSON-shaped Python values: what [json.load] produces and what the
    configuration attributes hold. Floats are read as rationals. *)
Inductive pyval : Type :=
| VNone
| VBool (b : bool)
| VInt (z : Z)
| VFloat (q : Q)
| VStr (s : string)
| VList (l : list pyval)
| VDict (items : list (string * pyval)).

(** Truth value of an object, as tested by [not], [and] and [if]. *)
Definition truthy (v : pyval) : bool :=
  match v with
  | VNone => false
  | VBool b => b
  | VInt z => negb (z =? 0)
  | VFloat q => negb (Qeq_bool q 0)
  | VStr s => negb (String.eqb s "")
  | VList l => match l with [] => false | _ => true end
  | VDict d => match d with [] => false | _ => true end
  end.

(** [v == 'literal'] *)
Definition eq_str (v : pyval) (lit : string) : bool :=
  match v with
  | VStr s => String.eqb s lit
  | _ => false
  end.

(** [len(v)]. A string is measured in bytes here, which is its length for
    ASCII text. *)
Definition py_len (v : pyval) : result Z :=
  match v with
  | VStr s => Ok (Z.of_nat (String.length s))
  | VList l => Ok (Z.of_nat (length l))
  | VDict d => Ok (Z.of_nat (length d))
  | _ => Raise TypeError
  end.

(** [str(z)] for an int. *)
Definition str_of_int (z : Z) : string := NilZero.string_of_int (Z.to_int z).

(** Entries of a numpy array: the dtype is read off the entries. *)
Inductive scalar : Type :=
| SInt (z : Z)
| SFloat (q : Q)
| SNaN.

(** A numpy array of any rank; also the value of a list literal of
    numbers in a CSV cell. *)
Inductive nd : Type :=
| Scalar (x : scalar)
| Arr (l : list nd).

(** [a.shape] *)
Fixpoint shape (a : nd) : list nat :=
  match a with
  | Scalar _ => []
  | Arr l => length l :: match l with [] => [] | x :: _ => shape x end
  end.

(** [np.ones_like(a)]: same shape and dtype, every entry one. *)
Definition one_like (x : scalar) : scalar :=
  match x with
  | SInt _ => SInt 1
  | _ => SFloat 1
  end.

Fixpoint ones_like (a : nd) : nd :=
  match a with
  | Scalar x => Scalar (one_like x)
  | Arr l => Arr (map ones_like l)
  end.

(** [a.astype(int)]: truncation toward zero; NaN becomes the least int64. *)
Definition scalar_astype_int (x : scalar) : scalar :=
  match x with
  | SInt z => SInt z
  | SFloat q => SInt (Z.quot (Qnum q) (Zpos (Qden q)))
  | SNaN => SInt (- 2 ^ 63)
  end.

Fixpoint astype_int (a : nd) : nd :=
  match a with
  | Scalar x => Scalar (scalar_astype_int x)
  | Arr l => Arr (map astype_int l)
  end.

(** Every entry of the array satisfies [p]. *)
Fixpoint all_entries (p : scalar -> bool) (a : nd) : bool :=
  match a with
  | Scalar x => p x
  | Arr l => forallb (all_entries p) l
  end.

Definition is_int_one (x : scalar) : bool :=
  match x with SInt 1 => true | _ => false end.

Definition is_int (x : scalar) : bool :=
  match x with SInt _ => true | _ => false end.

Definition is_float (x : scalar) : bool :=
  match x with SInt _ => false | _ => true end.

Definition to_float (x : scalar) : scalar :=
  match x with SInt z => SFloat (inject_Z z) | other => other end.

Fixpoint map_entries (f : scalar -> scalar) (a : nd) : nd :=
  match a with
  | Scalar x => Scalar (f x)
  | Arr l => Arr (map (map_entries f) l)
  end.

Fixpoint exists_entry (p : scalar -> bool) (a : nd) : bool :=
  match a with
  | Scalar x => p x
  | Arr l => existsb (exists_entry p) l
  end.

Definition shape_eqb (s1 s2 : list nat) : bool :=
  bool_decide (s1 = s2).

(** The nested list is a full rectangular block. *)
Fixpoint rectangular (a : nd) : bool :=
  match a with
  | Scalar _ => true
  | Arr l =>
      forallb rectangular l
      && match l with
         | [] => true
         | x :: rest => forallb (fun y => shape_eqb (shape y) (shape x)) rest
         end
  end.

(** [np.asarray(rows)] of a list of parsed literals: a ragged nesting is
    refused ([ValueError], numpy 1.24 and later), and a float anywhere
    makes the whole array float. *)
Definition asarray (rows : list nd) : result nd :=
  let a := Arr rows in
  if rectangular a then
    Ok (if exists_entry is_float a then map_entries to_float a else a)
  else Raise ValueError.

(** One record of [data_instances], as packed by [pack_instances]. *)
Record instance : Type := mk_instance {
  inst_features : nd;
  inst_lbs : nd;
  inst_masks : nd
}.

(** Values of the attributes of a [Dataset]. The attributes are read at
    their annotated types ([List[str]], [np.ndarray], [None]); the list of
    feature arrays and the instance list complete the union. *)
Inductive dsval : Type :=
| DNone
| DStrs (l : list string)
| DNds (l : list nd)
| DNd (a : nd)
| DInstances (l : list instance).

(** A cell of a CSV column holding a list literal: empty (pandas reads
    NaN), a literal that [literal_eval] accepts, or text it refuses. *)
Inductive cell : Type :=
| CellNull
| CellLiteral (v : nd)
| CellMalformed.

(** The [DataFrame] that [pd.read_csv] returns; a column the file does not
    have is [None]. *)
Record DataFrame : Type := mk_DataFrame {
  df_smiles : option (list string);
  df_labels : option (list cell);
  df_masks : option (list cell)
}.

(** ** The file system *)

Inductive file_content : Type :=
| FJson (v : pyval)
| FCsv (df : DataFrame)
| FPt (attr_dict : gmap string dsval)
| FOther.

Inductive node : Type :=
| NDir
| NFile (c : file_content).

(** Files and directories by normalised path. The working directory and
    the root are always directories. Permissions are not modelled. *)
Module os.

Definition is_root_or_cwd (q : string) : bool :=
  (String.eqb q "." || String.eqb q "/" || String.eqb q "//")%bool.

Definition stat (fs : gmap string node) (p : string) : option node :=
  if String.eqb p "" then None
  else
    let q := posixpath.normpath p in
    if is_root_or_cwd q then Some NDir else fs !! q.

(** [os.path.exists], [os.path.isdir], [os.path.isfile] *)
Definition exists_ (fs : gmap string node) (p : string) : bool :=
  match stat fs p with Some _ => true | None => false end.

Definition isdir (fs : gmap string node) (p : string) : bool :=
  match stat fs p with Some NDir => true | _ => false end.

Definition isfile (fs : gmap string node) (p : string) : bool :=
  match stat fs p with Some (NFile _) => true | _ => false end.

(** [open(p, 'r')] followed by reading the whole file. *)
Definition read (fs : gmap string node) (p : string) : result file_content :=
  match stat fs p with
  | None => Raise FileNotFoundError
  | Some NDir => Raise IsADirectoryError
  | Some (NFile c) => Ok c
  end.

(** The directory that has to exist for [q] to be created. *)
Definition parent_ok (fs : gmap string node) (q : string) : result unit :=
  let d := posixpath.dirname q in
  if String.eqb d "" then Ok tt
  else match stat fs d with
       | Some NDir => Ok tt
       | Some (NFile _) => Raise NotADirectoryError
       | None => Raise FileNotFoundError
       end.

(** [open(p, 'w')], writing [c] and closing. *)
Definition write (fs : gmap string node) (p : string) (c : file_content)
  : result (gmap string node) :=
  match stat fs p with
  | Some NDir => Raise IsADirectoryError
  | _ =>
      if String.eqb p "" then Raise FileNotFoundError
      else
        let q := posixpath.normpath p in
        _ ← parent_ok fs q;
        Ok (<[q := NFile c]> fs)
  end.

(** The path itself and its ancestors, outermost first. *)
Fixpoint prefixes_from (acc : string) (comps : list string) : list string :=
  match comps with
  | [] => []
  | c :: rest =>
      let here := posixpath.join2 acc c in
      here :: prefixes_from here rest
  end.

Definition prefixes (q : string) : list string :=
  match posixpath.split_sep q with
  | "" :: "" :: comps => prefixes_from "//" comps
  | "" :: comps => prefixes_from "/" comps
  | comps => prefixes_from "" comps
  end.

Fixpoint mkdir_all (fs : gmap string node) (ps : list string)
  : result (gmap string node) :=
  match ps with
  | [] => Ok fs
  | p :: rest =>
      match stat fs p with
      | None => mkdir_all (<[posixpath.normpath p := NDir]> fs) rest
      | Some NDir => mkdir_all fs rest
      | Some (NFile _) =>
          Raise (match rest with [] => FileExistsError | _ => NotADirectoryError end)
      end
  end.

(** [os.makedirs(d, exist_ok=True)] *)
Definition makedirs (fs : gmap string node) (d : string) : result (gmap string node) :=
  if String.eqb d "" then Raise FileNotFoundError
  else mkdir_all fs (prefixes (posixpath.normpath d)).

End os.

(** ** [mubench/base/args.py] *)

Module args.

(** What a name is bound to in a class namespace, as far as attribute
    assignment and [dir] can tell. *)
Inductive class_attr : Type :=
| CField (default : pyval)   (* dataclass field; the class keeps its default *)
| CValue (v : pyval)         (* plain class attribute *)
| CMethod                    (* function *)
| CCachedProperty            (* functools.cached_property: no __set__ *)
| CProperty                  (* property without a setter *)
| CReadOnly (e : exn)        (* slot that refuses JSON values, raising e *)
| CInstanceDict.             (* __dict__ *)

(** The typed constructor arguments that [__post_init__] reads, at their
    annotated types ([Optional[str]], [Optional[int]], [Optional[bool]]). *)
Record Arguments : Type := mk_Arguments {
  wandb_project : option string;
  wandb_name : option string;
  disable_wandb : option bool;
  dataset_name : option string;
  dataset_splitting_random_seed : option Z;
  data_dir : option string;
  uncertainty_method : pyval;
  n_test : option Z;
  n_swa_epochs : option Z;
  k_swa_checkpoints : option Z
}.

Definition of_str (s : option string) : pyval :=
  match s with Some x => VStr x | None => VNone end.
Definition of_int (z : option Z) : pyval :=
  match z with Some x => VInt x | None => VNone end.
Definition of_bool (b : option bool) : pyval :=
  match b with Some x => VBool x | None => VNone end.

(** [os.path.join] refuses [None]. *)
Definition fspath (s : option string) : result string :=
  match s with Some x => Ok x | None => Raise TypeError end.

(** [a > b] on [Optional[int]]. *)
Definition gt (a b : option Z) : result bool :=
  match a, b with
  | Some x, Some y => Ok (x >? y)
  | _, _ => Raise TypeError
  end.

(** [f"{v}"] for an [Optional[int]] and an [Optional[str]]. *)
Definition format_int (z : option Z) : string :=
  match z with Some x => str_of_int x | None => "None" end.
Definition format_str (s : option string) : string :=
  match s with Some x => x | None => "None" end.

(** [a and b and not c]: the first falsy operand, else [not c]. *)
Definition and_and_not (a b c : pyval) : pyval :=
  if negb (truthy a) then a
  else if negb (truthy b) then b
  else VBool (negb (truthy c)).

(** [Arguments.__post_init__]; the second component is [apply_wandb]. *)
Definition __post_init__ (self : Arguments) : result (Arguments * pyval) :=
  dir_ ← fspath (data_dir self);
  name ← fspath (dataset_name self);
  let data_dir' :=
    posixpath.join dir_
      [name; "split-" +:+ format_int (dataset_splitting_random_seed self)] in
  let apply_wandb :=
    and_and_not (of_str (wandb_project self)) (of_str (wandb_name self))
                (of_bool (disable_wandb self)) in
  n_test' ←
    (if (eq_str (uncertainty_method self) "MC-Dropout"
         || eq_str (uncertainty_method self) "SWAG")%bool
     then
       more ← gt (n_test self) (Some 1);
       Ok (if (more : bool) then n_test self else Some 20)
     else Ok (n_test self));
  exceeds ← gt (k_swa_checkpoints self) (n_swa_epochs self);
  let k' := if (exceeds : bool) then n_swa_epochs self else k_swa_checkpoints self in
  Ok ({| wandb_project := wandb_project self;
         wandb_name := wandb_name self;
         disable_wandb := disable_wandb self;
         dataset_name := dataset_name self;
         dataset_splitting_random_seed := dataset_splitting_random_seed self;
         data_dir := Some data_dir';
         uncertainty_method := uncertainty_method self;
         n_test := n_test';
         n_swa_epochs := n_swa_epochs self;
         k_swa_checkpoints := k' |},
      apply_wandb).

Section Class.

(** [UncertaintyMethods.none] of [mubench/utils/macro.py], the default of
    [uncertainty_method]. *)
Variable UncertaintyMethods_none : pyval.

(** The names an instance inherits from [object] and from the dataclass
    machinery ([__class__], [__dict__], [__init__], ...), with their
    behaviour under assignment; they depend on the interpreter. *)
Variable inherited : list (string * class_attr).

(** The dataclass fields of [Arguments], in declaration order, with their
    defaults. *)
Definition Arguments_fields : list (string * pyval) :=
  [ ("wandb_api_key", VNone);
    ("wandb_project", VNone);
    ("wandb_name", VNone);
    ("disable_wandb", VBool false);
    ("dataset_name", VStr "");
    ("dataset_splitting_random_seed", VInt 0);
    ("data_dir", VStr "");
    ("result_dir", VStr "./output");
    ("ignore_preprocessed_dataset", VBool false);
    ("overwrite_results", VBool false);
    ("model_name", VStr "DNN");
    ("dropout", VFloat (1 # 10));
    ("binary_classification_with_softmax", VBool false);
    ("regression_with_variance", VBool false);
    ("uncertainty_method", UncertaintyMethods_none);
    ("feature_type", VStr "none");
    ("n_dnn_hidden_layers", VInt 8);
    ("d_dnn_hidden", VInt 128);
    ("retrain_model", VBool false);
    ("batch_size", VInt 32);
    ("n_epochs", VInt 50);
    ("lr", VFloat (1 # 10000));
    ("grad_norm", VInt 0);
    ("lr_scheduler_type", VStr "constant");
    ("warmup_ratio", VFloat (1 # 10));
    ("seed", VInt 42);
    ("debug", VBool false);
    ("n_ensembles", VInt 5);
    ("lr_decay", VFloat (1 # 10));
    ("n_swa_epochs", VInt 30);
    ("k_swa_checkpoints", VInt 30);
    ("valid_epoch_interval", VInt 1);
    ("n_test", VInt 1);
    ("no_cuda", VBool false);
    ("num_workers", VInt 0) ].

Definition field_names : list string := map fst Arguments_fields.

(** The namespace of [Config] over [Arguments], as the two class bodies
    declare it. In the body of [Config] the name [d_feature] is first bound
    to [None] and then rebound to the cached property. *)
Definition Config_class : list (string * class_attr) :=
  [ ("d_feature", CCachedProperty);
    ("classes", CValue VNone);
    ("task_type", CValue (VStr "classification"));
    ("n_tasks", CValue VNone);
    ("n_lbs", CCachedProperty);
    ("get_meta", CMethod);
    ("from_args", CMethod);
    ("save", CMethod);
    ("load", CMethod) ]
  ++ map (fun '(name, default) => (name, CField default)) Arguments_fields
  ++ [ ("__post_init__", CMethod);
       ("_setup_devices", CCachedProperty);
       ("device_str", CCachedProperty);
       ("device", CProperty);
       ("n_gpu", CProperty) ].

Fixpoint assoc {A} (name : string) (l : list (string * A)) : option A :=
  match l with
  | [] => None
  | (k, a) :: rest => if String.eqb k name then Some a else assoc name rest
  end.

(** Lookup of a name on the class: the declared namespace, then what is
    inherited. *)
Definition class_lookup (name : string) : option class_attr :=
  match assoc name Config_class with
  | Some a => Some a
  | None => assoc name inherited
  end.

(** [name in dir(self)] *)
Definition in_dir (self : gmap string pyval) (name : string) : bool :=
  match self !! name with
  | Some _ => true
  | None => match class_lookup name with Some _ => true | None => false end
  end.

(** [getattr(self, name)] for the attributes that hold data: the instance
    [__dict__], then the class attribute. *)
Definition getattr (self : gmap string pyval) (name : string) : result pyval :=
  match self !! name with
  | Some v => Ok v
  | None =>
      match class_lookup name with
      | Some (CField d) | Some (CValue d) => Ok d
      | _ => Raise AttributeError
      end
  end.

(** [setattr(self, name, v)] *)
Definition setattr (self : gmap string pyval) (name : string) (v : pyval)
  : result (gmap string pyval) :=
  match class_lookup name with
  | Some CProperty => Raise AttributeError
  | Some (CReadOnly e) => Raise e
  | Some CInstanceDict =>
      match v with
      | VDict items => Ok (list_to_map items)
      | _ => Raise TypeError
      end
  | _ => Ok (<[name := v]> self)
  end.

(** Access through [functools.cached_property]: the value stored in the
    instance [__dict__] if there is one, else the body is run and its
    value stored. *)
Definition cached_property (name : string)
    (body : gmap string pyval -> result pyval) (self : gmap string pyval)
  : result (pyval * gmap string pyval) :=
  match self !! name with
  | Some v => Ok (v, self)
  | None => v ← body self; Ok (v, <[name := v]> self)
  end.

(** The keyword arguments of the generated [__init__] other than the ones
    in [Arguments]: each has to name a field. *)
Fixpoint init_others (self : gmap string pyval) (kwargs : list (string * pyval))
  : result (gmap string pyval) :=
  match kwargs with
  | [] => Ok self
  | (k, v) :: rest =>
      if bool_decide (k ∈ field_names) then init_others (<[k := v]> self) rest
      else Raise TypeError
  end.

(** The constructor of [Config]: the generated [__init__] stores every field and
    calls [__post_init__]. *)
Definition __init__ (a : Arguments) (kwargs : list (string * pyval))
  : result (gmap string pyval) :=
  self ← init_others (list_to_map Arguments_fields) kwargs;
  '(a', apply_wandb) ← __post_init__ a;
  Ok (<["apply_wandb" := apply_wandb]>
      (<["k_swa_checkpoints" := of_int (k_swa_checkpoints a')]>
      (<["n_swa_epochs" := of_int (n_swa_epochs a')]>
      (<["n_test" := of_int (n_test a')]>
      (<["uncertainty_method" := uncertainty_method a']>
      (<["data_dir" := of_str (data_dir a')]>
      (<["dataset_splitting_random_seed" := of_int (dataset_splitting_random_seed a')]>
      (<["dataset_name" := of_str (dataset_name a')]>
      (<["disable_wandb" := of_bool (disable_wandb a')]>
      (<["wandb_name" := of_str (wandb_name a')]>
      (<["wandb_project" := of_str (wandb_project a')]> self))))))))))).

(** The body of [Config.n_lbs]. In the last branch the [ValueError] is
    built but not raised, so the function returns [None]. *)
Definition n_lbs (self : gmap string pyval) : result pyval :=
  task_type ← getattr self "task_type";
  if eq_str task_type "classification" then
    classes ← getattr self "classes";
    n ← py_len classes;
    if n =? 2 then
      softmax ← getattr self "binary_classification_with_softmax";
      if negb (truthy softmax) then Ok (VInt 1) else Ok (VInt n)
    else Ok (VInt n)
  else if eq_str task_type "regression" then
    variance ← getattr self "regression_with_variance";
    Ok (if truthy variance then VInt 2 else VInt 1)
  else Ok VNone.

(** The body of [Config.d_feature]. *)
Definition d_feature (self : gmap string pyval) : result pyval :=
  feature_type ← getattr self "feature_type";
  if eq_str feature_type "rdkit" then Ok (VInt 200)
  else if eq_str feature_type "rdkit" then Ok (VInt 1024)
  else Ok (VInt 0).

(** The loop of [get_meta] over [meta_dict.items()]; the state is [self]
    and [invalid_keys]. *)
Fixpoint get_meta_loop (self : gmap string pyval) (invalid_keys : list string)
    (items : list (string * pyval))
  : result (gmap string pyval * list string) :=
  match items with
  | [] => Ok (self, invalid_keys)
  | (k, v) :: rest =>
      if in_dir self k then
        self' ← setattr self k v;
        get_meta_loop self' invalid_keys rest
      else get_meta_loop self (invalid_keys ++ [k]) rest
  end.

(** [json.load] of an opened file. *)
Definition json_load (c : file_content) : result pyval :=
  match c with
  | FJson v => Ok v
  | _ => Raise JSONDecodeError
  end.

(** [d.items()] *)
Definition items (d : pyval) : result (list (string * pyval)) :=
  match d with
  | VDict l => Ok l
  | _ => Raise AttributeError
  end.

(** [Config.get_meta]. The result is [self] and the list of keys named in
    the warning (no warning is logged when it is empty). *)
Definition get_meta (fs : gmap string node) (self : gmap string pyval)
    (meta_dir : option string) (meta_file_name : string)
  : result (gmap string pyval * list string) :=
  meta_dir ←
    match meta_dir with
    | Some d => Ok d
    | None =>
        if in_dir self "data_dir" then
          d ← getattr self "data_dir";
          match d with VStr s => Ok s | _ => Raise TypeError end
        else Raise ValueError
    end;
  let meta_dir := posixpath.join meta_dir [meta_file_name] in
  f ← os.read fs meta_dir;
  meta_dict ← json_load f;
  l ← items meta_dict;
  get_meta_loop self [] l.

(** [dataclasses.asdict(self)] *)
Fixpoint asdict_fields (self : gmap string pyval) (names : list string)
  : result (list (string * pyval)) :=
  match names with
  | [] => Ok []
  | f :: rest =>
      v ← getattr self f;
      d ← asdict_fields self rest;
      Ok ((f, v) :: d)
  end.

Definition asdict (self : gmap string pyval) : result (list (string * pyval)) :=
  asdict_fields self field_names.

(** [Config.save]; an exception of the write is logged and raised again. *)
Definition save (fs : gmap string node) (self : gmap string pyval)
    (file_dir file_name : string) : result (gmap string node) :=
  file_path ←
    (if os.isdir fs file_dir then
       Ok (posixpath.join file_dir [file_name +:+ ".json"])
     else if os.isdir fs (fst (posixpath.split file_dir)) then Ok file_dir
     else Raise FileNotFoundError);
  d ← asdict self;
  os.write fs file_path (FJson (VDict d)).

(** The loop of [load] and [from_args]: [setattr] under
    [except AttributeError: pass]. *)
Fixpoint setattr_all (self : gmap string pyval) (items : list (string * pyval))
  : result (gmap string pyval) :=
  match items with
  | [] => Ok self
  | (attr, value) :: rest =>
      self' ← except_AttributeError_pass (setattr self attr value) self;
      setattr_all self' rest
  end.

(** [Config.load]. The [assert] raises [AssertionError]; the
    [FileNotFoundError] it is given is only its message. *)
Definition load (fs : gmap string node) (self : gmap string pyval)
    (file_dir file_name : string) : result (gmap string pyval) :=
  file_path ←
    (if os.isdir fs file_dir then
       let file_path := posixpath.join file_dir [file_name +:+ ".json"] in
       if os.isfile fs file_path then Ok file_path else Raise AssertionError
     else if os.isfile fs file_dir then Ok file_dir
     else Raise FileNotFoundError);
  f ← os.read fs file_path;
  config ← json_load f;
  l ← items config;
  setattr_all self l.

End Class.

End args.

(** ** [mubench/dnn/dataset/dataset.py] *)

Module dataset.

(** The attributes of [config] that [prepare] and [create_features] read,
    at the types [Arguments] annotates such options with. *)
Record config : Type := mk_config {
  model_name : option string;
  feature_type : option string;
  data_dir : option string;
  ignore_preprocessed_dataset : option bool;
  disable_dataset_saving : option bool;
  num_preprocess_workers : option Z
}.

Definition is_true (b : option bool) : bool :=
  match b with Some true => true | _ => false end.

(** [x != 'literal'] on an [Optional[str]]. *)
Definition ne_str (x : option string) (lit : string) : bool :=
  match x with Some s => negb (String.eqb s lit) | None => true end.

(** [Dataset.__init__] *)
Definition __init__ : gmap string dsval :=
  <["data_instances" := DNone]>
  (<["_masks" := DNone]>
  (<["_lbs" := DNone]>
  (<["_smiles" := DNone]>
  (<["_features" := DNone]> ∅)))).

(** [self.name] for an instance attribute. *)
Definition attr (self : gmap string dsval) (name : string) : result dsval :=
  match self !! name with
  | Some v => Ok v
  | None => Raise AttributeError
  end.

(** The body of the cached property [masks]. Of [None], [np.ones_like]
    makes an array of rank 0. *)
Definition masks_body (self : gmap string dsval) : result dsval :=
  _masks ← attr self "_masks";
  match _masks with
  | DNone =>
      lbs ← attr self "_lbs";
      match lbs with
      | DNd a => Ok (DNd (astype_int (ones_like a)))
      | DNone => Ok (DNd (Scalar (SInt 1)))
      | _ => Raise TypeError
      end
  | provided => Ok provided
  end.

(** [self.masks], through [functools.cached_property]. *)
Definition masks (self : gmap string dsval) : result (dsval * gmap string dsval) :=
  match self !! "masks" with
  | Some v => Ok (v, self)
  | None => v ← masks_body self; Ok (v, <["masks" := v]> self)
  end.

(** [literal_eval] of a cell; of an empty cell it is given the float NaN. *)
Definition literal_eval (c : cell) : result nd :=
  match c with
  | CellLiteral v => Ok v
  | CellNull | CellMalformed => Raise ValueError
  end.

Definition isnull (c : cell) : bool :=
  match c with CellNull => true | _ => false end.

Fixpoint mapM {A B} (f : A -> result B) (l : list A) : result (list B) :=
  match l with
  | [] => Ok []
  | x :: rest => y ← f x; ys ← mapM f rest; Ok (y :: ys)
  end.

(** [df.column] *)
Definition column {A} (c : option A) : result A :=
  match c with Some x => Ok x | None => Raise AttributeError end.

(** [Dataset.read_csv] *)
Definition read_csv (fs : gmap string node) (self : gmap string dsval)
    (file_path : string) : result (gmap string dsval) :=
  f ← os.read fs file_path;
  df ← match f with FCsv df => Ok df | _ => Raise ParserError end;
  smiles ← column (df_smiles df);
  let self := <["_smiles" := DStrs smiles]> self in
  labels ← column (df_labels df);
  literals ← mapM literal_eval labels;
  lbs ← asarray literals;
  let self := <["_lbs" := DNd lbs]> self in
  mask_cells ← column (df_masks df);
  _masks ←
    (if negb (forallb isnull mask_cells) then
       literals ← mapM literal_eval mask_cells;
       a ← asarray literals;
       Ok (DNd a)
     else Ok DNone);
  Ok (<["_masks" := _masks]> self).

(** [get_context('fork').Pool(n)]: a count below one is refused. *)
Definition Pool (n : option Z) : result unit :=
  match n with
  | Some k => if k <? 1 then Raise ValueError else Ok tt
  | None => Ok tt
  end.

(** [regex.match("^_[a-z]", attr)] *)
Definition is_lower (c : ascii) : bool :=
  let n := nat_of_ascii c in ((97 <=? n)%nat && (n <=? 122)%nat)%bool.

Definition private_attr (attr : string) : bool :=
  match attr with
  | String u (String c _) => (Ascii.eqb u "_"%char && is_lower c)%bool
  | _ => false
  end.

(** The elements that iterating over a value yields. *)
Definition iter (v : dsval) : result (list nd) :=
  match v with
  | DNds l => Ok l
  | DNd (Arr l) => Ok l
  | _ => Raise TypeError
  end.

(** Modelled from the spec: [pack_instances] of [mubench/utils/data.py],
    which is not among the sources. It zips features, labels and masks
    into per-instance records. *)
Fixpoint pack_instances (features lbs masks : list nd) : list instance :=
  match features, lbs, masks with
  | f :: fs, l :: ls, m :: ms => mk_instance f l m :: pack_instances fs ls ms
  | _, _, _ => []
  end.

(** [Dataset.get_instances]; reading [self.masks] may fill its cache. *)
Definition get_instances (self : gmap string dsval)
  : result (list instance * gmap string dsval) :=
  _features ← attr self "_features";
  lbs ← attr self "_lbs";
  '(m, self) ← masks self;
  fl ← iter _features;
  ll ← iter lbs;
  ml ← iter m;
  Ok (pack_instances fl ll ml, self).

(** [Dataset.update_lbs] *)
Definition update_lbs (self : gmap string dsval) (lbs : nd)
  : result (gmap string dsval) :=
  let self := <["_lbs" := DNd lbs]> self in
  '(instances, self) ← get_instances self;
  Ok (<["data_instances" := DInstances instances]> self).

(** [Dataset.__len__]: [len(self._smiles)] *)
Definition __len__ (self : gmap string dsval) : result nat :=
  _smiles ← attr self "_smiles";
  match _smiles with
  | DStrs l => Ok (length l)
  | DNds l => Ok (length l)
  | DNd (Arr l) => Ok (length l)
  | DInstances l => Ok (length l)
  | DNd (Scalar _) | DNone => Raise TypeError
  end.

(** [Dataset.save]: the attributes whose name matches [^_[a-z]] go to the
    file, after its directory is made. *)
Definition save (fs : gmap string node) (self : gmap string dsval)
    (file_path : string) : result (gmap string node) :=
  let attr_dict := filter (fun kv => private_attr (fst kv) = true) self in
  fs ← os.makedirs fs (posixpath.dirname (posixpath.normpath file_path));
  os.write fs file_path (FPt attr_dict).

(** [Dataset.load]: every attribute of the file is set on [self]. *)
Definition load (fs : gmap string node) (self : gmap string dsval)
    (file_path : string) : result (gmap string dsval) :=
  f ← os.read fs file_path;
  attr_dict ← match f with FPt d => Ok d | _ => Raise UnpicklingError end;
  Ok (map_fold (fun attr_ value self => <[attr_ := value]> self) self attr_dict).

Section Features.

(** The feature generators of [mubench/dnn/dataset/features.py]. *)
Variable rdkit_2d_features_normalized_generator : string -> result nd.
Variable morgan_binary_features_generator : string -> result nd.

(** [Dataset.create_features] *)
Definition create_features (self : gmap string dsval) (cfg : config)
  : result (gmap string dsval) :=
  _smiles ← attr self "_smiles";
  smiles ← match _smiles with DStrs l => Ok l | _ => Raise TypeError end;
  if negb (ne_str (feature_type cfg) "rdkit") then
    _ ← Pool (num_preprocess_workers cfg);
    fl ← mapM rdkit_2d_features_normalized_generator smiles;
    Ok (<["_features" := DNds fl]> self)
  else if negb (ne_str (feature_type cfg) "morgan") then
    _ ← Pool (num_preprocess_workers cfg);
    fl ← mapM morgan_binary_features_generator smiles;
    Ok (<["_features" := DNds fl]> self)
  else
    Ok (<["_features" := DNd (Arr (replicate (length smiles) (Scalar SNaN)))]> self).

(** The identifier of the featurisation in the cache path. *)
Definition method_identifier (cfg : config) : option string :=
  if ne_str (feature_type cfg) "none"
  then Some (args.format_str (model_name cfg) +:+ "-" +:+ args.format_str (feature_type cfg))
  else model_name cfg.

Definition preprocessed_path (cfg : config) (partition : string) : result string :=
  d ← args.fspath (data_dir cfg);
  m ← args.fspath (method_identifier cfg);
  Ok (posixpath.normpath (posixpath.join d ["processed"; m; partition +:+ ".pt"])).

Definition csv_path (cfg : config) (partition : string) : result string :=
  d ← args.fspath (data_dir cfg);
  Ok (posixpath.normpath (posixpath.join d [partition +:+ ".csv"])).

(** [Dataset.prepare]: the dataset and the file system after the call. *)
Definition prepare (fs : gmap string node) (self : gmap string dsval)
    (cfg : config) (partition : string)
  : result (gmap string dsval * gmap string node) :=
  if negb (bool_decide (partition ∈ ["train"; "valid"; "test"]))
  then Raise AssertionError
  else
    preprocessed_path ← preprocessed_path cfg partition;
    '(self, fs) ←
      (if (os.exists_ fs preprocessed_path
           && negb (is_true (ignore_preprocessed_dataset cfg)))%bool
       then
         self ← load fs self preprocessed_path;
         Ok (self, fs)
       else
         file_path ← csv_path cfg partition;
         self ←
           (if (negb (String.eqb file_path "") && os.exists_ fs file_path)%bool
            then read_csv fs self file_path
            else Raise FileNotFoundError);
         self ← create_features self cfg;
         if negb (is_true (disable_dataset_saving cfg)) then
           fs ← save fs self preprocessed_path;
           Ok (self, fs)
         else Ok (self, fs));
    '(instances, self) ← get_instances self;
    Ok (<["data_instances" := DInstances instances]> self, fs).

End Features.

End dataset.

(** ** [mubench/grover/train.py] *)

Module train.

Local Open Scope Q_scope.

(** A tensor: its shape and its entries in row-major order. *)
Record tensor : Type := mk_tensor {
  t_shape : list nat;
  t_data : list Q
}.

(** A float that may have left the finite range: [None] stands for NaN
    and the infinities. *)
Definition fdiv (x y : Q) : option Q :=
  if Qeq_bool y 0 then None else Some (x / y).

Definition sum (l : list Q) : Q := fold_right Qplus 0 l.

(** [t.view(-1, k)] *)
Definition view_rows (k : nat) (t : tensor) : result tensor :=
  let n := length (t_data t) in
  if (Nat.eqb k 0 || negb (Nat.eqb (n mod k) 0))%bool then Raise RuntimeError
  else Ok {| t_shape := [(n / k)%nat; k]; t_data := t_data t |}.

(** [t.view(-1, j, k)] *)
Definition view_rows2 (j k : nat) (t : tensor) : result tensor :=
  let n := length (t_data t) in
  if (Nat.eqb (j * k) 0 || negb (Nat.eqb (n mod (j * k)) 0))%bool then Raise RuntimeError
  else Ok {| t_shape := [(n / (j * k))%nat; j; k]; t_data := t_data t |}.

(** [t.view(-1)] *)
Definition view_flat (t : tensor) : tensor :=
  {| t_shape := [length (t_data t)]; t_data := t_data t |}.

Fixpoint squared_differences (a b : list Q) : list Q :=
  match a, b with
  | x :: a', y :: b' => (x - y) * (x - y) :: squared_differences a' b'
  | _, _ => []
  end.

(** [F.mse_loss(input, target)] with its default [reduction='mean'], for
    operands of one shape: a single number, the mean over all entries. *)
Definition mse_loss (input target : tensor) : result (option Q) :=
  if bool_decide (t_shape input = t_shape target)
     && Nat.eqb (length (t_data input)) (length (t_data target))
  then
    Ok (fdiv (sum (squared_differences (t_data input) (t_data target)))
             (inject_Z (Z.of_nat (length (t_data input)))))
  else Raise RuntimeError.

(** The attributes of the GROVER configuration that the loss reads. *)
Record GroverConfig : Type := mk_GroverConfig {
  task_type : string;
  binary_classification_with_softmax : bool;
  regression_with_variance : bool;
  n_lbs : nat;
  n_tasks : nat;
  dist_coff : Q
}.

Record batch : Type := mk_batch {
  batch_lbs : tensor;
  batch_masks : tensor
}.

(** [Trainer.get_distance_loss]. [loss] is a single number when it meets
    the masks, so [loss * masks] is that number times each mask. *)
Definition get_distance_loss (cfg : GroverConfig) (atom_logits bond_logits : tensor)
    (b : batch) : result (option Q) :=
  let masks := batch_masks b in
  '(atom_logits, bond_logits, masks) ←
    (if (String.eqb (task_type cfg) "classification"
         && binary_classification_with_softmax cfg)%bool
     then
       a ← view_rows (n_lbs cfg) atom_logits;
       b ← view_rows (n_lbs cfg) bond_logits;
       Ok (a, b, view_flat masks)
     else Ok (atom_logits, bond_logits, masks));
  '(atom_logits, bond_logits) ←
    (if (String.eqb (task_type cfg) "regression" && regression_with_variance cfg)%bool
     then
       a ← view_rows2 (n_tasks cfg) 2 atom_logits;
       b ← view_rows2 (n_tasks cfg) 2 bond_logits;
       Ok (a, b)
     else Ok (atom_logits, bond_logits));
  loss ← mse_loss atom_logits bond_logits;
  Ok (match loss with
      | Some l => fdiv (sum (map (fun m => l * m) (t_data masks))) (sum (t_data masks))
      | None => None
      end).

Section Trainer.

(** [get_loss] of the base [Trainer] ([mubench/base/train.py]). *)
Variable super_get_loss : tensor -> batch -> Q.

(** [Trainer.get_loss]; [logits] is the tuple the model returns. *)
Definition get_loss (cfg : GroverConfig) (logits : list tensor) (b : batch)
  : result (option Q) :=
  match logits with
  | [atom_logits; bond_logits] =>
      let atom_loss := super_get_loss atom_logits b in
      let bond_loss := super_get_loss bond_logits b in
      dist ← get_distance_loss cfg atom_logits bond_logits b;
      Ok (match dist with
          | Some d => Some (atom_loss + bond_loss + dist_coff cfg * d)
          | None => None
          end)
  | _ => Raise AssertionError
  end.

(** The consistency term in the words of the specification: the squared
    differences, masked, and averaged over the valid entries. *)
Definition spec_masked_mse (atom_logits bond_logits masks : list Q) : option Q :=
  fdiv (sum (map (fun '(d, m) => d * m)
                 (combine (squared_differences atom_logits bond_logits) masks)))
       (sum masks).

End Trainer.

End train.

(** ** Inputs for the examples *)

(** An interpreter namespace to run the examples in: what CPython gives a
    dataclass instance beyond the two class bodies. *)
Definition cpython_inherited : list (string * args.class_attr) :=
  [ ("__class__", args.CReadOnly TypeError);
    ("__dict__", args.CInstanceDict);
    ("__weakref__", args.CReadOnly AttributeError);
    ("__doc__", args.CValue VNone);
    ("__module__", args.CValue (VStr "mubench.base.args"));
    ("__dataclass_fields__", args.CMethod);
    ("__dataclass_params__", args.CMethod);
    ("__init__", args.CMethod);
    ("__repr__", args.CMethod);
    ("__eq__", args.CMethod);
    ("__hash__", args.CValue VNone);
    ("__setattr__", args.CMethod);
    ("__getattribute__", args.CMethod);
    ("__dir__", args.CMethod) ].

Definition um0 : pyval := VStr "none".

(** A configuration of a binary classification task, after [get_meta]. *)
Definition config_binary : gmap string pyval :=
  <["classes" := VList [VInt 0; VInt 1]]>
  (<["task_type" := VStr "classification"]>
  (list_to_map (args.Arguments_fields um0))).

(** Constructor arguments with more SWA checkpoints than SWA epochs. *)
Definition arguments_swag : args.Arguments :=
  {| args.wandb_project := Some "muben";
     args.wandb_name := Some "run";
     args.disable_wandb := Some false;
     args.dataset_name := Some "tox21";
     args.dataset_splitting_random_seed := Some 0;
     args.data_dir := Some "data";
     args.uncertainty_method := VStr "SWAG";
     args.n_test := Some 1;
     args.n_swa_epochs := Some 20;
     args.k_swa_checkpoints := Some 30 |}.

(** ** The claims in the words of the specification *)

(** [n_lbs]: 1 for binary classification without softmax, else the class
    count; 2 under regression with variance, else 1. *)
Definition spec_n_lbs (task_type : string) (n_classes : Z) (softmax variance : bool) : Z :=
  if String.eqb task_type "classification" then
    if ((n_classes =? 2) && negb softmax)%bool then 1 else n_classes
  else
    if variance then 2 else 1.

(** ** Predicates used by the statements *)

(** Assignment to the name stores into the instance: the name is free, or
    bound on the class to something that is not a read-only descriptor. *)
Definition assignable (um : pyval) (inh : list (string * args.class_attr))
    (name : string) : bool :=
  match args.class_lookup um inh name with
  | Some args.CProperty | Some (args.CReadOnly _) | Some args.CInstanceDict => false
  | _ => true
  end.

(** The instance after the keys of [items] that [dir(self0)] lists have
    been assigned, in order. *)
Definition assign_known (um : pyval) (inh : list (string * args.class_attr))
    (self0 : gmap string pyval) (items : list (string * pyval))
    (self : gmap string pyval) : gmap string pyval :=
  foldl (fun acc kv => if args.in_dir um inh self0 (fst kv)
                       then <[fst kv := snd kv]> acc else acc) self items.

Definition assign_all (items : list (string * pyval)) (self : gmap string pyval)
  : gmap string pyval :=
  foldl (fun acc kv => <[fst kv := snd kv]> acc) self items.

(** A results directory, and a configuration to save into it. *)
Definition fs_results : gmap string node := {[ "output" := NDir ]}.

Definition config_regression : gmap string pyval :=
  <["task_type" := VStr "regression"]>
  (<["lr" := VFloat (1 # 1000)]>
  (<["apply_wandb" := VBool true]>
  (list_to_map (args.Arguments_fields um0)))).

Definition config_fresh : gmap string pyval :=
  <["apply_wandb" := VNone]> (list_to_map (args.Arguments_fields um0)).

(** A data directory whose [meta.json] names a task type, two classes, an
    unknown key, and, in the second file, the read-only [device]. *)
Definition fs_meta : gmap string node :=
  {[ "data" := NDir;
     "data/meta.json" :=
       NFile (FJson (VDict [ ("task_type", VStr "classification");
                             ("classes", VList [VInt 0; VInt 1]);
                             ("random_split", VBool true) ])) ]}.

Definition fs_meta_device : gmap string node :=
  {[ "data" := NDir;
     "data/meta.json" := NFile (FJson (VDict [ ("device", VStr "cpu") ])) ]}.

(** The value [asdict] reads for a field. *)
Definition field_value (um : pyval) (inh : list (string * args.class_attr))
    (self : gmap string pyval) (name : string) : pyval :=
  match args.getattr um inh self name with Ok v => v | Raise _ => VNone end.

(** The cache path in the words of the specification:
    [data_dir/processed/{model}-{feature_type}/{partition}.pt]. *)
Definition spec_cache_path (cfg : dataset.config) (partition : string) : result string :=
  d ← args.fspath (dataset.data_dir cfg);
  Ok (posixpath.normpath
        (posixpath.join d
           [ "processed";
             args.format_str (dataset.model_name cfg) +:+ "-"
             +:+ args.format_str (dataset.feature_type cfg);
             partition +:+ ".pt" ])).

(** [prepare] takes the branch that loads the cache. *)
Definition uses_cache (fs : gmap string node) (cfg : dataset.config)
    (preprocessed_path : string) : bool :=
  (os.exists_ fs preprocessed_path
   && negb (dataset.is_true (dataset.ignore_preprocessed_dataset cfg)))%bool.

(** A feature generator for the examples: the length of the string. *)
Definition gen_length (smiles : string) : result nd :=
  Ok (Arr [Scalar (SFloat (inject_Z (Z.of_nat (String.length smiles))))]).

Definition labels_2x2 : list cell :=
  [ CellLiteral (Arr [Scalar (SInt 0); Scalar (SInt 1)]);
    CellLiteral (Arr [Scalar (SInt 1); Scalar (SInt 0)]) ].

(** A split with two molecules, two tasks and no masks. *)
Definition fs_data : gmap string node :=
  {[ "data" := NDir;
     "data/train.csv" :=
       NFile (FCsv {| df_smiles := Some ["CCO"; "CC"];
                      df_labels := Some labels_2x2;
                      df_masks := Some [CellNull; CellNull] |}) ]}.

(** The same split with one mask per molecule for its two labels. *)
Definition fs_data_short_masks : gmap string node :=
  {[ "data" := NDir;
     "data/train.csv" :=
       NFile (FCsv {| df_smiles := Some ["CCO"; "CC"];
                      df_labels := Some labels_2x2;
                      df_masks := Some [ CellLiteral (Arr [Scalar (SInt 1)]);
                                         CellLiteral (Arr [Scalar (SInt 1)]) ] |}) ]}.

Definition cfg_dnn (feature_type : string) (ignore no_saving : bool) : dataset.config :=
  {| dataset.model_name := Some "DNN";
     dataset.feature_type := Some feature_type;
     dataset.data_dir := Some "data";
     dataset.ignore_preprocessed_dataset := Some ignore;
     dataset.disable_dataset_saving := Some no_saving;
     dataset.num_preprocess_workers := Some 4 |}.

(** The shape of an attribute that holds an array. *)
Definition value_shape (v : dsval) : list nat :=
  match v with DNd a => shape a | _ => [] end.

(** A dataset of one molecule with one float label and no masks. *)
Definition dataset_unmasked : gmap string dsval :=
  <["_lbs" := DNd (Arr [Arr [Scalar (SFloat (1 # 2))]])]> dataset.__init__.

(** Two molecules with one regression task: the heads differ on the
    first, whose label is missing, and agree on the second. *)
Definition grover_cfg : train.GroverConfig :=
  {| train.task_type := "regression";
     train.binary_classification_with_softmax := false;
     train.regression_with_variance := false;
     train.n_lbs := 1;
     train.n_tasks := 1;
     train.dist_coff := 1%Q |}.

Definition atom_logits_ex : train.tensor :=
  {| train.t_shape := [2; 1]%nat; train.t_data := [1%Q; 0%Q] |}.

Definition bond_logits_ex : train.tensor :=
  {| train.t_shape := [2; 1]%nat; train.t_data := [0%Q; 0%Q] |}.

Definition batch_ex : train.batch :=
  {| train.batch_lbs := {| train.t_shape := [2; 1]%nat; train.t_data := [0%Q; 0%Q] |};
     train.batch_masks := {| train.t_shape := [2; 1]%nat; train.t_data := [0%Q; 1%Q] |} |}.

(** A base loss for the examples. *)
Definition zero_loss (logits : train.tensor) (b : train.batch) : Q := 0%Q.

(** [uncertainty_method in ["MC-Dropout", "SWAG"]] *)
Definition samples_at_test (a : args.Arguments) : bool :=
  (eq_str (args.uncertainty_method a) "MC-Dropout"
   || eq_str (args.uncertainty_method a) "SWAG")%bool.

(** No argument that [__post_init__] joins or compares is [None]. *)
Definition post_init_arguments_given (a : args.Arguments) : bool :=
  (bool_decide (is_Some (args.data_dir a))
   && bool_decide (is_Some (args.dataset_name a))
   && (negb (samples_at_test a) || bool_decide (is_Some (args.n_test a)))
   && bool_decide (is_Some (args.k_swa_checkpoints a))
   && bool_decide (is_Some (args.n_swa_epochs a)))%bool.

(** Arguments for MC-Dropout with the default single test run. *)
Definition arguments_mc_dropout : args.Arguments :=
  {| args.wandb_project := Some "muben";
     args.wandb_name := Some "";
     args.disable_wandb := Some false;
     args.dataset_name := Some "tox21";
     args.dataset_splitting_random_seed := Some 3;
     args.data_dir := Some "data";
     args.uncertainty_method := VStr "MC-Dropout";
     args.n_test := Some 1;
     args.n_swa_epochs := Some 30;
     args.k_swa_checkpoints := Some 30 |}.

(** A configuration whose meta file named a task type the code does not
    know, and one that has not read its meta file yet. *)
Definition config_ranking : gmap string pyval :=
  <["task_type" := VStr "ranking"]> config_fresh.

(** The string has no ['/']. *)
Fixpoint no_sep (s : string) : bool :=
  match s with
  | EmptyString => true
  | String c s' => (negb (Ascii.eqb c posixpath.sep) && no_sep s')%bool
  end.

(** A saved configuration file that also names the read-only [device]. *)
Definition fs_config_device : gmap string node :=
  {[ "output" := NDir;
     "output/config.json" :=
       NFile (FJson (VDict [ ("lr", VFloat (1 # 100));
                             ("device", VStr "cuda");
                             ("seed", VInt 7) ])) ]}.

(** Every key is a name that takes the assignment or a property without
    setter. *)
Definition assignable_or_property (um : pyval) (inh : list (string * args.class_attr))
    (name : string) : bool :=
  match args.class_lookup um inh name with
  | Some (args.CReadOnly _) | Some args.CInstanceDict => false
  | _ => true
  end.

Definition is_property (um : pyval) (inh : list (string * args.class_attr))
    (name : string) : bool :=
  match args.class_lookup um inh name with
  | Some args.CProperty => true
  | _ => false
  end.

(** The three columns of the frame have [n] rows. *)
Definition frame_rows (df : DataFrame) (n : nat) : Prop :=
  exists smiles labels mask_cells,
    df_smiles df = Some smiles /\ df_labels df = Some labels
    /\ df_masks df = Some mask_cells
    /\ length smiles = n /\ length labels = n /\ length mask_cells = n.

(** A split whose file has no masks column, and one whose masks column
    is empty for the second molecule only. *)
Definition fs_data_no_masks_column : gmap string node :=
  {[ "data" := NDir;
     "data/train.csv" :=
       NFile (FCsv {| df_smiles := Some ["CCO"; "CC"];
                      df_labels := Some labels_2x2;
                      df_masks := None |}) ]}.

Definition fs_data_partial_masks : gmap string node :=
  {[ "data" := NDir;
     "data/train.csv" :=
       NFile (FCsv {| df_smiles := Some ["CCO"; "CC"];
                      df_labels := Some labels_2x2;
                      df_masks := Some [ CellLiteral (Arr [Scalar (SInt 1); Scalar (SInt 1)]);
                                         CellNull ] |}) ]}.

(** A cache for the training split with RDKit features, and no CSV. *)
Definition fs_cache_only : gmap string node :=
  {[ "data/processed/DNN-rdkit/train.pt" :=
       NFile (FPt (<["_masks" := DNone]>
                   (<["_lbs" := DNd (Arr [Arr [Scalar (SInt 1)]])]>
                   (<["_smiles" := DStrs ["CCO"]]>
                   (<["_features" := DNds [Arr [Scalar (SFloat 3)]]]> ∅))))) ]}.

(** A dataset of two molecules whose default masks have been read. *)
Definition dataset_two : gmap string dsval :=
  <["masks" := DNd (Arr [Arr [Scalar (SInt 1)]; Arr [Scalar (SInt 1)]])]>
  (<["_features" := DNds [Arr [Scalar (SFloat 3)]; Arr [Scalar (SFloat 2)]]]>
  (<["_lbs" := DNd (Arr [Arr [Scalar (SInt 0)]; Arr [Scalar (SInt 1)]])]>
  (<["_smiles" := DStrs ["CCO"; "CC"]]> dataset.__init__))).

(** * Properties *)

(** ** The path functions on examples *)

Example normpath_collapses : posixpath.normpath "a//b/./c/../d/" = "a/b/d".
Proof. reflexivity. Qed.

Example normpath_keeps_two_slashes : posixpath.normpath "//x/../../y" = "//y".
Proof. reflexivity. Qed.

Example normpath_leading_dotdot : posixpath.normpath "../a/../../b" = "../../b".
Proof. reflexivity. Qed.

Example join_relative : posixpath.join "data" ["tox21"; "split-0"] = "data/tox21/split-0".
Proof. reflexivity. Qed.

Example join_absolute_resets : posixpath.join "" ["tox21"; "/abs"; "x"] = "/abs/x".
Proof. reflexivity. Qed.

Example split_nested : posixpath.split "a/b/c.json" = ("a/b", "c.json").
Proof. reflexivity. Qed.

Example split_root : posixpath.split "/c.json" = ("/", "c.json").
Proof. reflexivity. Qed.

Example split_bare : posixpath.split "c.json" = ("", "c.json").
Proof. reflexivity. Qed.

Example str_of_int_negative : str_of_int (-15) = "-15".
Proof. reflexivity. Qed.

Example str_of_int_zero : str_of_int 0 = "0".
Proof. reflexivity. Qed.

(** ** The error monad *)

Lemma bind_Ok {A B} (m : result A) (f : A -> result B) (b : B) :
  m ≫= f = Ok b -> exists a, m = Ok a /\ f a = Ok b.
Proof. destruct m as [a|e]; simpl; [eauto | discriminate]. Qed.

Ltac bind_inv H :=
  let a := fresh "x" in
  let Ha := fresh "H" a in
  apply bind_Ok in H; destruct H as (a & Ha & H).

(** Case analysis on a closed computation that returns: the branch of the
    exception is closed by running the computation. *)
Ltac destruct_Ok t x H :=
  destruct t as [x|?e] eqn:H;
  [| exfalso;
     let H' := fresh in
     assert (H' : is_Ok t = true) by (vm_compute; reflexivity);
     rewrite H in H'; discriminate H' ].

(** ** [Config]: derived properties *)

Section ConfigProperties.

Variable um : pyval.
Variable inh : list (string * args.class_attr).

Notation getattr := (args.getattr um inh).
Notation setattr := (args.setattr um inh).
Notation class_lookup := (args.class_lookup um inh).
Notation in_dir := (args.in_dir um inh).

(** A field always has a value: the one of the instance or the default. *)
Lemma getattr_field (self : gmap string pyval) name :
  name ∈ args.field_names um -> exists v, getattr self name = Ok v.
Proof.
  intros Hin. unfold args.getattr. destruct (self !! name); [eauto|].
  unfold args.field_names, args.Arguments_fields in Hin. simpl in Hin.
  repeat (apply elem_of_cons in Hin as [->|Hin]; [simpl; eauto|]).
  inversion Hin.
Qed.

Lemma getattr_task_type (self : gmap string pyval) :
  exists v, getattr self "task_type" = Ok v.
Proof. unfold args.getattr. destruct (self !! "task_type"); simpl; eauto. Qed.

Lemma getattr_classes (self : gmap string pyval) :
  exists v, getattr self "classes" = Ok v.
Proof. unfold args.getattr. destruct (self !! "classes"); simpl; eauto. Qed.

Lemma getattr_softmax (self : gmap string pyval) :
  exists v, getattr self "binary_classification_with_softmax" = Ok v.
Proof.
  unfold args.getattr.
  destruct (self !! "binary_classification_with_softmax"); simpl; eauto.
Qed.

Lemma getattr_variance (self : gmap string pyval) :
  exists v, getattr self "regression_with_variance" = Ok v.
Proof.
  unfold args.getattr.
  destruct (self !! "regression_with_variance"); simpl; eauto.
Qed.

Lemma getattr_feature_type (self : gmap string pyval) :
  exists v, getattr self "feature_type" = Ok v.
Proof. unfold args.getattr. destruct (self !! "feature_type"); simpl; eauto. Qed.

(** The classification branch of [n_lbs]. *)
Lemma n_lbs_classification (self : gmap string pyval) classes n softmax :
  getattr self "task_type" = Ok (VStr "classification") ->
  getattr self "classes" = Ok classes ->
  py_len classes = Ok n ->
  getattr self "binary_classification_with_softmax" = Ok softmax ->
  args.n_lbs um inh self
  = Ok (VInt (if ((n =? 2) && negb (truthy softmax))%bool then 1 else n)).
Proof.
  intros Ht Hc Hn Hs. unfold args.n_lbs.
  rewrite Ht. simpl. rewrite Hc. simpl. rewrite Hn. simpl.
  destruct (n =? 2) eqn:E; simpl; [|reflexivity].
  rewrite Hs. simpl. destruct (truthy softmax); reflexivity.
Qed.

(** The regression branch of [n_lbs]. *)
Lemma n_lbs_regression (self : gmap string pyval) variance :
  getattr self "task_type" = Ok (VStr "regression") ->
  getattr self "regression_with_variance" = Ok variance ->
  args.n_lbs um inh self = Ok (VInt (if truthy variance then 2 else 1)).
Proof.
  intros Ht Hv. unfold args.n_lbs. rewrite Ht. simpl. rewrite Hv. simpl.
  destruct (truthy variance); reflexivity.
Qed.

(** Any other task type: the [ValueError] is not raised and [n_lbs] is
    [None]. *)
Lemma n_lbs_other_task_type (self : gmap string pyval) t :
  getattr self "task_type" = Ok t ->
  eq_str t "classification" = false ->
  eq_str t "regression" = false ->
  args.n_lbs um inh self = Ok VNone.
Proof.
  intros Ht Hc Hr. unfold args.n_lbs. rewrite Ht. simpl. rewrite Hc, Hr.
  reflexivity.
Qed.

(** C2. For a [Config] whose [task_type] is ['classification'], [n_lbs]
    is 1 when the classes are exactly two and
    [binary_classification_with_softmax] is false, and the number of
    classes otherwise; for ['regression'] it is 2 when
    [regression_with_variance] is true and 1 otherwise. *)
Theorem n_lbs_by_task_type (self : gmap string pyval) (task_type : string) (n : Z) :
  getattr self "task_type" = Ok (VStr task_type) ->
  (task_type = "classification"
   /\ exists classes, getattr self "classes" = Ok classes /\ py_len classes = Ok n)
  \/ task_type = "regression" ->
  exists softmax variance,
    getattr self "binary_classification_with_softmax" = Ok softmax
    /\ getattr self "regression_with_variance" = Ok variance
    /\ args.n_lbs um inh self
       = Ok (VInt (spec_n_lbs task_type n (truthy softmax) (truthy variance))).
Proof.
  intros Ht Hcase.
  destruct (getattr_softmax self) as [softmax Hs].
  destruct (getattr_variance self) as [variance Hv].
  exists softmax, variance. split; [exact Hs|]. split; [exact Hv|].
  destruct Hcase as [[-> (classes & Hc & Hn)] | ->].
  - rewrite (n_lbs_classification self classes n softmax Ht Hc Hn Hs).
    reflexivity.
  - rewrite (n_lbs_regression self variance Ht Hv). reflexivity.
Qed.

(** The first access through the cached property runs the body and keeps
    its value in the instance. *)
Lemma n_lbs_first_access (self : gmap string pyval) v :
  self !! "n_lbs" = None ->
  args.n_lbs um inh self = Ok v ->
  args.cached_property "n_lbs" (args.n_lbs um inh) self
  = Ok (v, <["n_lbs" := v]> self).
Proof. intros Hnone Hv. unfold args.cached_property. rewrite Hnone, Hv. reflexivity. Qed.

(** A later access returns the stored value without running the body. *)
Lemma cached_property_second_access name body (self : gmap string pyval) v self' :
  args.cached_property name body self = Ok (v, self') ->
  args.cached_property name body self' = Ok (v, self').
Proof.
  unfold args.cached_property. destruct (self !! name) eqn:E.
  - intros [= <- <-]. rewrite E. reflexivity.
  - intros H. bind_inv H. injection H as <- <-.
    rewrite lookup_insert_eq. reflexivity.
Qed.

(** C10. [d_feature] is 200 when [feature_type] is ['rdkit'] and 0 for
    every other feature type, ['morgan'] included: the branch that returns
    1024 repeats the ['rdkit'] test and is never taken. *)
Theorem d_feature_rdkit_or_zero (self : gmap string pyval) :
  exists feature_type,
    getattr self "feature_type" = Ok feature_type
    /\ args.d_feature um inh self
       = Ok (VInt (if eq_str feature_type "rdkit" then 200 else 0))
    /\ args.d_feature um inh self <> Ok (VInt 1024)
    /\ args.d_feature um inh (<["feature_type" := VStr "morgan"]> self) = Ok (VInt 0).
Proof.
  destruct (getattr_feature_type self) as [ft Hft]. exists ft.
  split; [exact Hft|]. unfold args.d_feature. rewrite Hft. simpl.
  repeat split.
  - destruct (eq_str ft "rdkit"); reflexivity.
  - destruct (eq_str ft "rdkit"); discriminate.
  - unfold args.getattr. rewrite lookup_insert_eq. reflexivity.
Qed.

End ConfigProperties.

(** [n_lbs] of a binary classification task without softmax is 1. *)
Lemma n_lbs_by_task_type_witness :
  args.n_lbs um0 cpython_inherited config_binary = Ok (VInt 1).
Proof.
  destruct (n_lbs_by_task_type um0 cpython_inherited config_binary "classification" 2)
    as (softmax & variance & Hs & Hv & H).
  - reflexivity.
  - left. split; [reflexivity|]. exists (VList [VInt 0; VInt 1]).
    split; reflexivity.
  - rewrite H. vm_compute in Hs. injection Hs as <-. reflexivity.
Defined.

(** ** [Arguments.__post_init__] and the constructor *)

Lemma gt_Ok a b r :
  args.gt a b = Ok r -> exists x y, a = Some x /\ b = Some y /\ r = (x >? y).
Proof.
  destruct a as [x|], b as [y|]; simpl; try discriminate.
  intros [= <-]. eauto.
Qed.

(** What [__post_init__] leaves in the two SWA fields. *)
Lemma post_init_swa (a a' : args.Arguments) apply_wandb :
  args.__post_init__ a = Ok (a', apply_wandb) ->
  exists k n,
    args.k_swa_checkpoints a = Some k
    /\ args.n_swa_epochs a = Some n
    /\ args.n_swa_epochs a' = Some n
    /\ args.k_swa_checkpoints a' = Some (if k >? n then n else k).
Proof.
  unfold args.__post_init__. intros H.
  bind_inv H. bind_inv H. bind_inv H. bind_inv H.
  apply gt_Ok in Hx2 as (k & n & Hk & Hn & ->).
  injection H as <- _. simpl. exists k, n.
  rewrite Hk, Hn. repeat split. destruct (k >? n); reflexivity.
Qed.

(** [__post_init__] completes on arguments of the annotated types that
    are not [None]. *)
Lemma post_init_completes (a : args.Arguments) d name t k n :
  args.data_dir a = Some d ->
  args.dataset_name a = Some name ->
  args.n_test a = Some t ->
  args.k_swa_checkpoints a = Some k ->
  args.n_swa_epochs a = Some n ->
  exists a' apply_wandb, args.__post_init__ a = Ok (a', apply_wandb).
Proof.
  intros Hd Hname Ht Hk Hn. unfold args.__post_init__.
  rewrite Hd, Hname, Ht, Hk, Hn. simpl.
  destruct (eq_str (args.uncertainty_method a) "MC-Dropout"
            || eq_str (args.uncertainty_method a) "SWAG")%bool; simpl; eauto.
Qed.

(** C8. After the construction of [Arguments] or [Config] completes,
    [k_swa_checkpoints] is at most [n_swa_epochs]: a given value above
    [n_swa_epochs] is replaced by [n_swa_epochs], any other is kept. *)
Theorem k_swa_checkpoints_clamped (um : pyval) (a : args.Arguments)
    (kwargs : list (string * pyval)) (self : gmap string pyval) :
  args.__init__ um a kwargs = Ok self ->
  exists k n k',
    args.k_swa_checkpoints a = Some k
    /\ args.n_swa_epochs a = Some n
    /\ self !! "n_swa_epochs" = Some (VInt n)
    /\ self !! "k_swa_checkpoints" = Some (VInt k')
    /\ k' <= n
    /\ k' = (if k >? n then n else k).
Proof.
  unfold args.__init__. intros H.
  bind_inv H. bind_inv H. destruct x0 as [a' apply_wandb].
  injection H as <-.
  apply post_init_swa in Hx0 as (k & n & Hk & Hn & Hn' & Hk').
  exists k, n, (if k >? n then n else k).
  split; [exact Hk|]. split; [exact Hn|].
  rewrite Hn', Hk'. simpl.
  split; [|split; [|split]].
  - rewrite !lookup_insert_ne by discriminate.
    rewrite lookup_insert_eq. reflexivity.
  - rewrite !lookup_insert_ne by discriminate.
    rewrite lookup_insert_eq. reflexivity.
  - destruct (k >? n) eqn:E; lia.
  - reflexivity.
Qed.

(** Thirty checkpoints for twenty epochs become twenty. *)
Lemma k_swa_checkpoints_clamped_witness :
  exists self,
    args.__init__ um0 arguments_swag [] = Ok self
    /\ self !! "k_swa_checkpoints" = Some (VInt 20).
Proof.
  destruct_Ok (args.__init__ um0 arguments_swag []) self E.
  exists self. split; [reflexivity|].
  destruct (k_swa_checkpoints_clamped um0 arguments_swag [] self E)
    as (k & n & k' & Hk & Hn & _ & Hself & _ & ->).
  injection Hk as <-. injection Hn as <-. exact Hself.
Defined.

(** ** The file system *)

Lemma write_Ok fs p c fs' :
  os.write fs p c = Ok fs' ->
  fs' = <[posixpath.normpath p := NFile c]> fs
  /\ String.eqb p "" = false
  /\ os.is_root_or_cwd (posixpath.normpath p) = false
  /\ fs !! posixpath.normpath p <> Some NDir.
Proof.
  unfold os.write, os.stat.
  destruct (String.eqb p "") eqn:Ep; [discriminate|].
  destruct (os.is_root_or_cwd (posixpath.normpath p)) eqn:Er; [discriminate|].
  destruct (fs !! posixpath.normpath p) as [[|c0]|] eqn:El; try discriminate;
    intros H; bind_inv H; injection H as <-; repeat split; congruence.
Qed.

(** What was written is what is read back. *)
Lemma read_after_write fs p c fs' :
  os.write fs p c = Ok fs' -> os.read fs' p = Ok c.
Proof.
  intros H. apply write_Ok in H as (-> & Ep & Er & _).
  unfold os.read, os.stat. rewrite Ep, Er, lookup_insert_eq. reflexivity.
Qed.

Lemma isfile_after_write fs p c fs' :
  os.write fs p c = Ok fs' -> os.isfile fs' p = true.
Proof.
  intros H. apply write_Ok in H as (-> & Ep & Er & _).
  unfold os.isfile, os.stat. rewrite Ep, Er, lookup_insert_eq. reflexivity.
Qed.

(** Writing a file neither makes nor removes a directory. *)
Lemma isdir_after_write fs p c fs' d :
  os.write fs p c = Ok fs' -> os.isdir fs' d = os.isdir fs d.
Proof.
  intros H. apply write_Ok in H as (-> & Ep & Er & Hnd).
  unfold os.isdir, os.stat.
  destruct (String.eqb d ""); [reflexivity|].
  destruct (os.is_root_or_cwd (posixpath.normpath d)); [reflexivity|].
  destruct (decide (posixpath.normpath p = posixpath.normpath d)) as [E|E].
  - rewrite <- E, lookup_insert_eq.
    destruct (fs !! posixpath.normpath p) as [[|]|]; congruence.
  - rewrite lookup_insert_ne by exact E. reflexivity.
Qed.

(** ** [Config.save] and [Config.load] *)

Section SaveLoad.

Variable um : pyval.
Variable inh : list (string * args.class_attr).

Notation getattr := (args.getattr um inh).
Notation setattr := (args.setattr um inh).
Notation field_names := (args.field_names um).
Notation value_of := (field_value um inh).

Lemma class_lookup_field name :
  name ∈ field_names -> exists d, args.class_lookup um inh name = Some (args.CField d).
Proof.
  intros Hin. unfold args.field_names, args.Arguments_fields in Hin. simpl in Hin.
  repeat (apply elem_of_cons in Hin as [->|Hin]; [simpl; eauto|]).
  inversion Hin.
Qed.

Lemma setattr_field (self : gmap string pyval) name v :
  name ∈ field_names -> setattr self name v = Ok (<[name := v]> self).
Proof.
  intros Hin. destruct (class_lookup_field name Hin) as [d Hd].
  unfold args.setattr. rewrite Hd. reflexivity.
Qed.

Lemma field_names_NoDup : NoDup field_names.
Proof. apply (bool_decide_unpack _). vm_compute. reflexivity. Qed.

Lemma asdict_fields_Ok (self : gmap string pyval) names :
  Forall (fun f => f ∈ field_names) names ->
  args.asdict_fields um inh self names
  = Ok (map (fun f => (f, value_of self f)) names).
Proof.
  induction 1 as [|f names Hf _ IH]; [reflexivity|].
  simpl. destruct (getattr_field um inh self f Hf) as [v Hv].
  unfold field_value at 1. rewrite Hv. simpl. rewrite IH. reflexivity.
Qed.

Lemma asdict_Ok (self : gmap string pyval) :
  args.asdict um inh self = Ok (map (fun f => (f, value_of self f)) field_names).
Proof. apply asdict_fields_Ok. apply Forall_forall. auto. Qed.

Lemma setattr_all_fields (items : list (string * pyval)) :
  forall self : gmap string pyval,
  Forall (fun kv => fst kv ∈ field_names) items ->
  args.setattr_all um inh self items = Ok (assign_all items self).
Proof.
  induction items as [|[k v] items IH]; intros self Hall; [reflexivity|].
  apply Forall_cons in Hall as [Hk Hall]. simpl in Hk. simpl.
  rewrite (setattr_field self k v Hk). simpl. rewrite (IH _ Hall). reflexivity.
Qed.

Lemma assign_all_other (items : list (string * pyval)) :
  forall (self : gmap string pyval) x,
  x ∉ map fst items -> assign_all items self !! x = self !! x.
Proof.
  induction items as [|[k v] items IH]; intros self x Hx; [reflexivity|].
  simpl in Hx. apply not_elem_of_cons in Hx as [Hne Hx].
  unfold assign_all. simpl. fold (assign_all items (<[k := v]> self)).
  rewrite (IH _ _ Hx). apply lookup_insert_ne. congruence.
Qed.

Lemma assign_all_lookup (items : list (string * pyval)) :
  forall (self : gmap string pyval) k v,
  NoDup (map fst items) -> (k, v) ∈ items -> assign_all items self !! k = Some v.
Proof.
  induction items as [|[k0 v0] items IH]; intros self k v Hnd Hin.
  - inversion Hin.
  - simpl in Hnd. apply NoDup_cons in Hnd as [Hk0 Hnd].
    unfold assign_all. simpl. fold (assign_all items (<[k0 := v0]> self)).
    apply elem_of_cons in Hin as [[= -> ->]|Hin].
    + rewrite (assign_all_other _ _ _ Hk0). apply lookup_insert_eq.
    + apply (IH _ _ _ Hnd Hin).
Qed.


(** [save] comes down to one write of the fields, at the path resolved
    from [file_dir]. *)
Lemma save_Ok fs (self : gmap string pyval) file_dir file_name fs' :
  args.save um inh fs self file_dir file_name = Ok fs' ->
  exists file_path,
    os.write fs file_path
      (FJson (VDict (map (fun f => (f, value_of self f)) field_names))) = Ok fs'
    /\ ((os.isdir fs file_dir = true
         /\ file_path = posixpath.join file_dir [file_name +:+ ".json"])
        \/ (os.isdir fs file_dir = false /\ file_path = file_dir)).
Proof.
  unfold args.save. rewrite asdict_Ok. intros H.
  destruct (os.isdir fs file_dir) eqn:Ed; simpl in H.
  - eexists. split; [exact H|]. left. split; reflexivity.
  - destruct (os.isdir fs (fst (posixpath.split file_dir))); simpl in H;
      [|discriminate].
    eexists. split; [exact H|]. right. split; reflexivity.
Qed.

(** In an existing directory [save] completes exactly when the file
    system accepts the write of [file_name.json]. *)
Lemma save_in_directory fs (self : gmap string pyval) file_dir file_name :
  os.isdir fs file_dir = true ->
  args.save um inh fs self file_dir file_name
  = os.write fs (posixpath.join file_dir [file_name +:+ ".json"])
      (FJson (VDict (map (fun f => (f, value_of self f)) field_names))).
Proof. intros Hd. unfold args.save. rewrite asdict_Ok, Hd. reflexivity. Qed.

Lemma load_reads fs (self : gmap string pyval) file_dir file_name file_path items :
  (os.isdir fs file_dir = true
   /\ file_path = posixpath.join file_dir [file_name +:+ ".json"])
  \/ (os.isdir fs file_dir = false /\ file_path = file_dir) ->
  os.isfile fs file_path = true ->
  os.read fs file_path = Ok (FJson (VDict items)) ->
  args.load um inh fs self file_dir file_name = args.setattr_all um inh self items.
Proof.
  intros Hcase Hfile Hread. unfold args.load.
  destruct Hcase as [[Hd ->]|[Hd ->]]; rewrite Hd.
  - rewrite Hfile. unfold mbind, result_bind. cbv beta iota.
    rewrite Hread. reflexivity.
  - rewrite Hfile. unfold mbind, result_bind. cbv beta iota.
    rewrite Hread. reflexivity.
Qed.

Lemma field_value_getattr (self : gmap string pyval) f :
  f ∈ field_names -> getattr self f = Ok (value_of self f).
Proof.
  intros Hf. destruct (getattr_field um inh self f Hf) as [v Hv].
  unfold field_value. rewrite Hv. reflexivity.
Qed.

(** C5. Saving a [Config] and loading the saved file yields a [Config]
    with an equal attribute set: every attribute that [save] writes, which
    is every dataclass field, is restored to an equal value on the
    [Config] that [load] is called on. Whatever else that [Config] holds
    is left as it was. *)
Theorem save_load_round_trip fs (self : gmap string pyval) file_dir file_name fs' :
  args.save um inh fs self file_dir file_name = Ok fs' ->
  forall receiver : gmap string pyval,
  exists loaded : gmap string pyval,
    args.load um inh fs' receiver file_dir file_name = Ok loaded
    /\ args.asdict um inh loaded = args.asdict um inh self
    /\ (forall f, f ∈ field_names -> getattr loaded f = getattr self f)
    /\ (forall x, x ∉ field_names -> loaded !! x = receiver !! x).
Proof.
  intros Hsave receiver.
  apply save_Ok in Hsave as (file_path & Hwrite & Hcase).
  set (d := map (fun f => (f, value_of self f)) field_names) in *.
  assert (Hkeys : map fst d = field_names).
  { unfold d. rewrite map_map. apply map_id. }
  assert (Hall : Forall (fun kv => fst kv ∈ field_names) d).
  { apply Forall_forall. intros [k v] Hin. simpl.
    apply list_elem_of_In in Hin. unfold d in Hin.
    apply in_map_iff in Hin as (f & [= <- <-] & Hf).
    apply list_elem_of_In. exact Hf. }
  assert (Hloaded : forall f, f ∈ field_names ->
            assign_all d receiver !! f = Some (value_of self f)).
  { intros f Hf. apply assign_all_lookup.
    - rewrite Hkeys. apply field_names_NoDup.
    - unfold d. apply list_elem_of_In, in_map_iff. exists f.
      split; [reflexivity|]. apply list_elem_of_In. exact Hf. }
  assert (Hget : forall f, f ∈ field_names ->
            getattr (assign_all d receiver) f = getattr self f).
  { intros f Hf. rewrite (field_value_getattr self f Hf).
    unfold args.getattr. rewrite (Hloaded f Hf). reflexivity. }
  exists (assign_all d receiver). split; [|split; [|split]].
  - rewrite (load_reads fs' receiver file_dir file_name file_path d).
    + apply setattr_all_fields. exact Hall.
    + destruct Hcase as [[Hd ->]|[Hd ->]]; [left|right];
        (split; [|reflexivity]);
        rewrite (isdir_after_write _ _ _ _ _ Hwrite); exact Hd.
    + apply (isfile_after_write _ _ _ _ Hwrite).
    + apply (read_after_write _ _ _ _ Hwrite).
  - rewrite !asdict_Ok. f_equal. apply map_ext_in. intros f Hf.
    f_equal. unfold field_value. rewrite Hget; [reflexivity|].
    apply list_elem_of_In. exact Hf.
  - exact Hget.
  - intros x Hx. apply assign_all_other. rewrite Hkeys. exact Hx.
Qed.

End SaveLoad.

(** A configuration saved under [output] and loaded into a new [Config]
    brings back its learning rate. *)
Lemma save_load_round_trip_witness :
  exists fs' loaded,
    args.save um0 cpython_inherited fs_results config_regression "output" "config" = Ok fs'
    /\ args.load um0 cpython_inherited fs' config_fresh "output" "config" = Ok loaded
    /\ args.getattr um0 cpython_inherited loaded "lr" = Ok (VFloat (1 # 1000)).
Proof.
  destruct_Ok
    (args.save um0 cpython_inherited fs_results config_regression "output" "config")
    fs' E.
  destruct (save_load_round_trip um0 cpython_inherited _ _ _ _ _ E config_fresh)
    as (loaded & Hload & _ & Hget & _).
  exists fs', loaded. split; [reflexivity|]. split; [exact Hload|].
  rewrite Hget; [reflexivity|]. vm_compute.
  repeat (first [apply list_elem_of_here | apply list_elem_of_further]).
Defined.

(** What is not a field is not saved: the task type of the original is
    not the one of the loaded configuration. *)
Example load_keeps_receiver_task_type :
  args.getattr um0 cpython_inherited config_regression "task_type"
  = Ok (VStr "regression")
  /\ (fs' ← args.save um0 cpython_inherited fs_results config_regression
               "output" "config";
      loaded ← args.load um0 cpython_inherited fs' config_fresh "output" "config";
      args.getattr um0 cpython_inherited loaded "task_type")
     = Ok (VStr "classification").
Proof. split; vm_compute; reflexivity. Qed.

(** ** [Config.get_meta] *)

Section GetMeta.

Variable um : pyval.
Variable inh : list (string * args.class_attr).

Notation getattr := (args.getattr um inh).
Notation setattr := (args.setattr um inh).
Notation in_dir := (args.in_dir um inh).
Notation can_assign := (assignable um inh).
Notation known_assigned := (assign_known um inh).

Lemma setattr_assignable (self : gmap string pyval) k v :
  can_assign k = true -> setattr self k v = Ok (<[k := v]> self).
Proof.
  unfold assignable, args.setattr.
  destruct (args.class_lookup um inh k) as [[]|]; (discriminate || reflexivity).
Qed.

(** Assigning a name that [dir] lists does not change what [dir] lists. *)
Lemma in_dir_insert (self : gmap string pyval) k v x :
  in_dir self k = true -> in_dir (<[k := v]> self) x = in_dir self x.
Proof.
  intros Hk. unfold args.in_dir in *.
  destruct (decide (k = x)) as [->|Hne].
  - rewrite lookup_insert_eq. exact (eq_sym Hk).
  - rewrite lookup_insert_ne by exact Hne. reflexivity.
Qed.

Lemma get_meta_loop_Ok (items : list (string * pyval)) :
  forall (self0 self : gmap string pyval) invalid_keys,
  (forall x, in_dir self x = in_dir self0 x) ->
  Forall (fun kv => can_assign (fst kv) = true) items ->
  args.get_meta_loop um inh self invalid_keys items
  = Ok (known_assigned self0 items self,
        invalid_keys ++ filter (fun k => in_dir self0 k = false) (map fst items)).
Proof.
  induction items as [|[k v] items IH]; intros self0 self inv Hdir Hall.
  - simpl. rewrite app_nil_r. reflexivity.
  - apply Forall_cons in Hall as [Hk Hall]. simpl in Hk.
    cbn [args.get_meta_loop map fst]. unfold assign_known. cbn [foldl fst snd].
    rewrite Hdir. destruct (in_dir self0 k) eqn:Ek.
    + rewrite (setattr_assignable self k v Hk). cbn [mbind result_bind].
      rewrite (IH self0 (<[k := v]> self) inv).
      * rewrite filter_cons_False by (rewrite Ek; discriminate). reflexivity.
      * intros x. rewrite in_dir_insert; [apply Hdir|]. rewrite Hdir. exact Ek.
      * exact Hall.
    + rewrite (IH self0 self (inv ++ [k]) Hdir Hall).
      rewrite filter_cons_True by exact Ek.
      rewrite <- app_assoc. reflexivity.
Qed.

Lemma assign_known_other (items : list (string * pyval)) :
  forall (self0 self : gmap string pyval) x,
  ~ (x ∈ map fst items /\ in_dir self0 x = true) ->
  known_assigned self0 items self !! x = self !! x.
Proof.
  induction items as [|[k v] items IH]; intros self0 self x Hx; [reflexivity|].
  unfold assign_known. cbn [foldl fst snd].
  fold (known_assigned self0 items
          (if in_dir self0 k then <[k := v]> self else self)).
  rewrite IH.
  - destruct (in_dir self0 k) eqn:Ek; [|reflexivity].
    apply lookup_insert_ne. intros ->. apply Hx. split; [|exact Ek].
    simpl. apply list_elem_of_here.
  - intros [Hin Hd]. apply Hx. split; [|exact Hd].
    simpl. apply list_elem_of_further. exact Hin.
Qed.

Lemma assign_known_lookup (items : list (string * pyval)) :
  forall (self0 self : gmap string pyval) k v,
  NoDup (map fst items) -> (k, v) ∈ items -> in_dir self0 k = true ->
  known_assigned self0 items self !! k = Some v.
Proof.
  induction items as [|[k0 v0] items IH]; intros self0 self k v Hnd Hin Hk.
  - inversion Hin.
  - simpl in Hnd. apply NoDup_cons in Hnd as [Hk0 Hnd].
    unfold assign_known. cbn [foldl fst snd].
    fold (known_assigned self0 items
            (if in_dir self0 k0 then <[k0 := v0]> self else self)).
    apply elem_of_cons in Hin as [[= -> ->]|Hin].
    + rewrite assign_known_other by (intros [Hin _]; exact (Hk0 Hin)).
      rewrite Hk. apply lookup_insert_eq.
    + apply (IH _ _ _ _ Hnd Hin Hk).
Qed.

(** A name that is not assignable is known: [dir] lists it. *)
Lemma not_assignable_in_dir (self : gmap string pyval) k :
  can_assign k = false -> in_dir self k = true.
Proof.
  unfold assignable, args.in_dir.
  destruct (self !! k); [reflexivity|].
  destruct (args.class_lookup um inh k); [reflexivity|discriminate].
Qed.

(** [data_dir] is a field, so [dir(self)] always lists it. *)
Lemma in_dir_data_dir (self : gmap string pyval) : in_dir self "data_dir" = true.
Proof. unfold args.in_dir. destruct (self !! "data_dir"); reflexivity. Qed.

(** [get_meta] up to its loop: the file is found and holds a dictionary. *)
Lemma get_meta_reads fs (self : gmap string pyval) meta_dir meta_file_name d items :
  meta_dir = Some d \/ (meta_dir = None /\ getattr self "data_dir" = Ok (VStr d)) ->
  os.read fs (posixpath.join d [meta_file_name]) = Ok (FJson (VDict items)) ->
  args.get_meta um inh fs self meta_dir meta_file_name
  = args.get_meta_loop um inh self [] items.
Proof.
  intros Hdir Hread. unfold args.get_meta.
  destruct Hdir as [->|[-> Hd]].
  - cbn [mbind result_bind]. rewrite Hread. reflexivity.
  - rewrite in_dir_data_dir, Hd. cbn [mbind result_bind]. rewrite Hread.
    reflexivity.
Qed.

(** C9, amended. For a [meta.json] dictionary none of whose keys names a
    read-only attribute, [get_meta] returns normally: each key that
    [dir(self)] lists is set to the value of the file, a key that it does
    not list leaves the [Config] as it was and is only named in the
    warning, and every other attribute is untouched. *)
Theorem get_meta_sets_known_keys fs (self : gmap string pyval)
    meta_dir meta_file_name d items :
  meta_dir = Some d \/ (meta_dir = None /\ getattr self "data_dir" = Ok (VStr d)) ->
  os.read fs (posixpath.join d [meta_file_name]) = Ok (FJson (VDict items)) ->
  NoDup (map fst items) ->
  Forall (fun kv => can_assign (fst kv) = true) items ->
  exists self' : gmap string pyval,
    args.get_meta um inh fs self meta_dir meta_file_name
    = Ok (self', filter (fun k => in_dir self k = false) (map fst items))
    /\ (forall k v, (k, v) ∈ items -> in_dir self k = true -> self' !! k = Some v)
    /\ (forall k, ~ (k ∈ map fst items /\ in_dir self k = true) ->
                  self' !! k = self !! k).
Proof.
  intros Hdir Hread Hnd Hall.
  exists (known_assigned self items self). split; [|split].
  - rewrite (get_meta_reads fs self meta_dir meta_file_name d items Hdir Hread).
    rewrite (get_meta_loop_Ok items self self []); auto.
  - intros k v Hin Hk. apply assign_known_lookup; assumption.
  - intros k Hk. apply assign_known_other. exact Hk.
Qed.

End GetMeta.

(** The meta file of a binary classification task: the task type and the
    classes are set, the unknown key is named in the warning. *)
Lemma get_meta_sets_known_keys_witness :
  exists self',
    args.get_meta um0 cpython_inherited fs_meta config_fresh (Some "data") "meta.json"
    = Ok (self', ["random_split"])
    /\ self' !! "classes" = Some (VList [VInt 0; VInt 1])
    /\ self' !! "random_split" = None.
Proof.
  destruct (get_meta_sets_known_keys um0 cpython_inherited fs_meta config_fresh
              (Some "data") "meta.json" "data"
              [ ("task_type", VStr "classification");
                ("classes", VList [VInt 0; VInt 1]);
                ("random_split", VBool true) ])
    as (self' & Hget & Hset & Hkeep).
  - left. reflexivity.
  - reflexivity.
  - apply (bool_decide_unpack _). vm_compute. reflexivity.
  - repeat (apply Forall_cons; split; [reflexivity|]). apply Forall_nil. exact I.
  - exists self'. split; [exact Hget|]. split.
    + apply (Hset "classes"); [|reflexivity].
      apply list_elem_of_further, list_elem_of_here.
    + rewrite Hkeep; [reflexivity|]. intros [_ H]. discriminate H.
Defined.

(** A meta file that names the read-only [device]: [dir] lists the name,
    the assignment is refused and [get_meta] raises. *)
Lemma get_meta_device_raises :
  args.in_dir um0 cpython_inherited config_fresh "device" = true
  /\ args.get_meta um0 cpython_inherited fs_meta_device config_fresh
       (Some "data") "meta.json"
     = Raise AttributeError.
Proof. split; reflexivity. Qed.

(** ** Missing files *)

Section MissingFiles.

Variable um : pyval.
Variable inh : list (string * args.class_attr).

Lemma read_missing fs p : os.exists_ fs p = false -> os.read fs p = Raise FileNotFoundError.
Proof.
  unfold os.exists_, os.read. destruct (os.stat fs p); [discriminate|reflexivity].
Qed.

(** [load] of a path that is neither a directory nor a file. *)
Lemma load_missing_path fs (self : gmap string pyval) file_dir file_name :
  os.isdir fs file_dir = false ->
  os.isfile fs file_dir = false ->
  args.load um inh fs self file_dir file_name = Raise FileNotFoundError.
Proof. intros Hd Hf. unfold args.load. rewrite Hd, Hf. reflexivity. Qed.

(** [load] of a directory that has no [file_name.json]: the [assert]
    fails. *)
Lemma load_missing_config_in_directory fs (self : gmap string pyval) file_dir file_name :
  os.isdir fs file_dir = true ->
  os.isfile fs (posixpath.join file_dir [file_name +:+ ".json"]) = false ->
  args.load um inh fs self file_dir file_name = Raise AssertionError.
Proof. intros Hd Hf. unfold args.load. rewrite Hd, Hf. reflexivity. Qed.

(** [get_meta] when the meta file does not exist in the resolved
    directory. *)
Lemma get_meta_missing_file fs (self : gmap string pyval) meta_dir meta_file_name d :
  meta_dir = Some d
  \/ (meta_dir = None /\ args.getattr um inh self "data_dir" = Ok (VStr d)) ->
  os.exists_ fs (posixpath.join d [meta_file_name]) = false ->
  args.get_meta um inh fs self meta_dir meta_file_name = Raise FileNotFoundError.
Proof.
  intros Hdir Hmiss. apply read_missing in Hmiss. unfold args.get_meta.
  destruct Hdir as [->|[-> Hd]].
  - cbn [mbind result_bind]. rewrite Hmiss. reflexivity.
  - rewrite (in_dir_data_dir um inh self), Hd. cbn [mbind result_bind].
    rewrite Hmiss. reflexivity.
Qed.

End MissingFiles.

Section PrepareMissing.

Variable rdkit morgan : string -> result nd.

(** [prepare] when the cache is not used and the CSV of the partition
    does not exist. *)
Lemma prepare_missing_csv fs (self : gmap string dsval) cfg partition pp csv :
  partition ∈ ["train"; "valid"; "test"] ->
  dataset.preprocessed_path cfg partition = Ok pp ->
  dataset.csv_path cfg partition = Ok csv ->
  uses_cache fs cfg pp = false ->
  os.exists_ fs csv = false ->
  dataset.prepare rdkit morgan fs self cfg partition = Raise FileNotFoundError.
Proof.
  intros Hp Hpp Hcsv Hcache Hmiss. unfold dataset.prepare.
  rewrite (bool_decide_eq_true_2 _ Hp). cbn [negb].
  rewrite Hpp. cbn [mbind result_bind].
  unfold uses_cache in Hcache. rewrite Hcache.
  rewrite Hcsv. cbn [mbind result_bind]. rewrite Hmiss, andb_false_r.
  reflexivity.
Qed.

End PrepareMissing.

(** C3, at the input where it fails. [load] is given the existing
    directory [output], which holds no [config.json]: it raises
    [AssertionError], not [FileNotFoundError]. *)
Theorem load_directory_without_config_raises_AssertionError :
  os.isdir fs_results "output" = true
  /\ os.exists_ fs_results "output/config.json" = false
  /\ args.load um0 cpython_inherited fs_results config_fresh "output" "config"
     = Raise AssertionError.
Proof. repeat split; vm_compute; reflexivity. Qed.

(** ** Arrays *)

(** Induction on arrays: the entries of an array satisfy the property. *)
Lemma nd_ind' (P : nd -> Prop) :
  (forall x, P (Scalar x)) ->
  (forall l, Forall P l -> P (Arr l)) ->
  forall a, P a.
Proof.
  intros Hs Ha. fix IH 1. intros [x|l].
  - apply Hs.
  - apply Ha. induction l as [|a l IHl]; constructor; [apply IH|exact IHl].
Qed.

Lemma shape_map_entries f a : shape (map_entries f a) = shape a.
Proof.
  induction a as [x|l IH] using nd_ind'; [reflexivity|].
  simpl. rewrite length_map. f_equal.
  destruct IH as [|a l Ha _]; [reflexivity|exact Ha].
Qed.

Lemma ones_like_map_entries a : ones_like a = map_entries one_like a.
Proof.
  induction a as [x|l IH] using nd_ind'; [reflexivity|].
  simpl. f_equal. induction IH as [|a l Ha _ IHl]; [reflexivity|].
  simpl. rewrite Ha, IHl. reflexivity.
Qed.

Lemma astype_int_map_entries a : astype_int a = map_entries scalar_astype_int a.
Proof.
  induction a as [x|l IH] using nd_ind'; [reflexivity|].
  simpl. f_equal. induction IH as [|a l Ha _ IHl]; [reflexivity|].
  simpl. rewrite Ha, IHl. reflexivity.
Qed.

(** [np.ones_like] and [astype] keep the shape. *)
Lemma shape_ones_like a : shape (ones_like a) = shape a.
Proof. rewrite ones_like_map_entries. apply shape_map_entries. Qed.

Lemma shape_astype_int a : shape (astype_int a) = shape a.
Proof. rewrite astype_int_map_entries. apply shape_map_entries. Qed.

Lemma all_entries_map_entries (p : scalar -> bool) f a :
  (forall x, p (f x) = true) -> all_entries p (map_entries f a) = true.
Proof.
  intros Hp. induction a as [x|l IH] using nd_ind'; [apply Hp|].
  simpl. induction IH as [|a l Ha _ IHl]; [reflexivity|].
  simpl. rewrite Ha, IHl. reflexivity.
Qed.

(** Every entry of [np.ones_like(a).astype(int)] is the int 1. *)
Lemma ones_like_all_ones a : all_entries is_int_one (astype_int (ones_like a)) = true.
Proof.
  rewrite ones_like_map_entries, astype_int_map_entries.
  induction a as [x|l IH] using nd_ind'.
  - destruct x; reflexivity.
  - simpl. induction IH as [|a l Ha _ IHl]; [reflexivity|].
    simpl. rewrite Ha, IHl. reflexivity.
Qed.

(** ** [Dataset.masks] *)

(** Without masks, the property is the all-ones int array of the shape of
    the labels. *)
Lemma masks_default (self : gmap string dsval) a :
  self !! "_masks" = Some DNone ->
  self !! "_lbs" = Some (DNd a) ->
  self !! "masks" = None ->
  dataset.masks self
  = Ok (DNd (astype_int (ones_like a)),
        <["masks" := DNd (astype_int (ones_like a))]> self).
Proof.
  intros Hm Hl Hc. unfold dataset.masks, dataset.masks_body, dataset.attr.
  rewrite Hc, Hm, Hl. reflexivity.
Qed.

(** With masks, the property is the array that was read, whatever its
    shape. *)
Lemma masks_provided (self : gmap string dsval) m :
  self !! "_masks" = Some m ->
  m <> DNone ->
  self !! "masks" = None ->
  dataset.masks self = Ok (m, <["masks" := m]> self).
Proof.
  intros Hm Hne Hc. unfold dataset.masks, dataset.masks_body, dataset.attr.
  rewrite Hc, Hm. destruct m; try reflexivity. congruence.
Qed.

(** C7, amended. For a [Dataset] whose labels are set and whose [masks]
    property has not been read yet: without a masks array the property is
    an all-ones int array of the shape of the labels; with one, it is
    that array as it was read, so its shape is the one the file gave
    it. *)
Theorem masks_default_ones_else_provided (self : gmap string dsval) a m :
  self !! "_lbs" = Some (DNd a) ->
  self !! "_masks" = Some m ->
  self !! "masks" = None ->
  exists v,
    dataset.masks self = Ok (v, <["masks" := v]> self)
    /\ match m with
       | DNone => exists ones, v = DNd ones
                               /\ shape ones = shape a
                               /\ all_entries is_int_one ones = true
       | provided => v = provided
       end.
Proof.
  intros Hl Hm Hc.
  assert (Hp : m <> DNone -> dataset.masks self = Ok (m, <["masks" := m]> self)).
  { intros Hne. apply masks_provided; assumption. }
  destruct m; try (eexists; split; [apply Hp; discriminate|reflexivity]).
  exists (DNd (astype_int (ones_like a))). split.
  - apply masks_default; assumption.
  - eexists. split; [reflexivity|]. split.
    + rewrite shape_astype_int. apply shape_ones_like.
    + apply ones_like_all_ones.
Qed.

(** One float label, no masks: the masks are one int 1, in the same
    shape. *)
Lemma masks_default_ones_else_provided_witness :
  exists v ones,
    dataset.masks dataset_unmasked = Ok (v, <["masks" := v]> dataset_unmasked)
    /\ v = DNd ones
    /\ shape ones = [1; 1]%nat
    /\ all_entries is_int_one ones = true.
Proof.
  destruct (masks_default_ones_else_provided dataset_unmasked
              (Arr [Arr [Scalar (SFloat (1 # 2))]]) DNone)
    as (v & Hv & ones & -> & Hshape & Hones); try reflexivity.
  exists (DNd ones), ones. repeat split; assumption.
Defined.

(** A CSV with two labels and one mask per molecule: [read_csv] accepts
    it, and the masks have another shape than the labels. *)
Lemma masks_shape_differs_from_labels :
  (self ← dataset.read_csv fs_data_short_masks dataset.__init__ "data/train.csv";
   lbs ← dataset.attr self "_lbs";
   '(m, _) ← dataset.masks self;
   Ok (value_shape lbs, value_shape m))
  = Ok ([2; 2]%nat, [2; 1]%nat).
Proof. vm_compute. reflexivity. Qed.

(** ** [Dataset.save] and [Dataset.load] *)

Lemma set_attributes_lookup (attr_dict self : gmap string dsval) k :
  map_fold (fun attr_ value self => <[attr_ := value]> self) self attr_dict !! k
  = match attr_dict !! k with Some v => Some v | None => self !! k end.
Proof.
  revert k.
  apply (map_fold_weak_ind
           (fun (r m : gmap string dsval) =>
              forall k, r !! k = match m !! k with Some v => Some v | None => self !! k end)).
  - intros k. rewrite lookup_empty. reflexivity.
  - intros i x m r Hi IH k. destruct (decide (i = k)) as [->|Hne].
    + rewrite !lookup_insert_eq. reflexivity.
    + rewrite !lookup_insert_ne by exact Hne. apply IH.
Qed.

(** [load] reads an attribute dictionary and sets each of its attributes;
    the others stay. *)
Lemma dataset_load_Ok fs (self self' : gmap string dsval) file_path :
  dataset.load fs self file_path = Ok self' ->
  exists attr_dict,
    os.read fs file_path = Ok (FPt attr_dict)
    /\ forall k, self' !! k
                 = match attr_dict !! k with Some v => Some v | None => self !! k end.
Proof.
  unfold dataset.load. intros H. bind_inv H. bind_inv H.
  destruct x as [| | d |]; try discriminate. injection Hx0 as <-.
  injection H as <-. exists d. split; [exact Hx|].
  intros k. apply set_attributes_lookup.
Qed.

Lemma dataset_load_reads fs (self : gmap string dsval) file_path attr_dict :
  os.read fs file_path = Ok (FPt attr_dict) ->
  dataset.load fs self file_path
  = Ok (map_fold (fun attr_ value self => <[attr_ := value]> self) self attr_dict).
Proof. intros H. unfold dataset.load. rewrite H. reflexivity. Qed.

(** Making directories creates and changes no file. *)
Lemma mkdir_all_files ps :
  forall fs fs' q c,
  os.mkdir_all fs ps = Ok fs' ->
  fs' !! q = Some (NFile c) -> fs !! q = Some (NFile c).
Proof.
  induction ps as [|p ps IH]; intros fs fs' q c H Hq.
  - injection H as <-. exact Hq.
  - simpl in H. destruct (os.stat fs p) as [[|c0]|] eqn:Es.
    + apply (IH _ _ _ _ H Hq).
    + discriminate.
    + specialize (IH _ _ _ _ H Hq).
      destruct (decide (posixpath.normpath p = q)) as [<-|Hne].
      * rewrite lookup_insert_eq in IH. discriminate.
      * rewrite lookup_insert_ne in IH by exact Hne. exact IH.
Qed.

Lemma makedirs_files fs d fs' q c :
  os.makedirs fs d = Ok fs' ->
  fs' !! q = Some (NFile c) -> fs !! q = Some (NFile c).
Proof.
  unfold os.makedirs. destruct (String.eqb d ""); [discriminate|].
  apply mkdir_all_files.
Qed.

(** [save] makes the directory and writes the attributes whose name
    matches [^_[a-z]] at [file_path]: they can be read back, and no other
    file is created or changed. *)
Lemma dataset_save_Ok fs (self : gmap string dsval) file_path fs' :
  dataset.save fs self file_path = Ok fs' ->
  os.read fs' file_path
  = Ok (FPt (filter (fun kv => dataset.private_attr (fst kv) = true) self))
  /\ os.exists_ fs' file_path = true
  /\ forall q c, fs' !! q = Some (NFile c) ->
                 q = posixpath.normpath file_path \/ fs !! q = Some (NFile c).
Proof.
  unfold dataset.save. intros H. bind_inv H. rename x into fs1.
  split; [apply (read_after_write _ _ _ _ H)|]. split.
  - pose proof (isfile_after_write _ _ _ _ H) as Hf.
    unfold os.isfile in Hf. unfold os.exists_.
    destruct (os.stat fs' file_path); [reflexivity|discriminate].
  - intros q c Hq. apply write_Ok in H as (-> & _ & _ & _).
    destruct (decide (posixpath.normpath file_path = q)) as [<-|Hne];
      [left; reflexivity|right].
    rewrite lookup_insert_ne in Hq by exact Hne.
    apply (makedirs_files _ _ _ _ _ Hx Hq).
Qed.

(** ** [Dataset.get_instances] *)

(** The instances are a function of four attributes: the features, the
    labels, the masks read from the file and the cached [masks]. *)
Lemma get_instances_ext (self1 self2 : gmap string dsval) :
  self1 !! "_features" = self2 !! "_features" ->
  self1 !! "_lbs" = self2 !! "_lbs" ->
  self1 !! "_masks" = self2 !! "_masks" ->
  self1 !! "masks" = self2 !! "masks" ->
  fst <$> dataset.get_instances self1 = fst <$> dataset.get_instances self2.
Proof.
  intros Hf Hl Hm Hc.
  unfold dataset.get_instances, dataset.masks, dataset.masks_body, dataset.attr.
  rewrite Hf, Hl, Hm, Hc.
  destruct (self2 !! "_features") as [f|]; [|reflexivity].
  destruct (self2 !! "_lbs") as [l|]; [|reflexivity].
  cbn [mbind result_bind].
  assert (Hiter : forall (m : dsval) (s1 s2 : gmap string dsval),
            fst <$> (fl ← dataset.iter f; ll ← dataset.iter l;
                     ml ← dataset.iter m;
                     Ok (dataset.pack_instances fl ll ml, s1))
            = fst <$> (fl ← dataset.iter f; ll ← dataset.iter l;
                       ml ← dataset.iter m;
                       Ok (dataset.pack_instances fl ll ml, s2))).
  { intros m s1 s2.
    destruct (dataset.iter f); [|reflexivity].
    destruct (dataset.iter l); [|reflexivity].
    destruct (dataset.iter m); reflexivity. }
  destruct (self2 !! "masks") as [c|]; [apply Hiter|].
  destruct (self2 !! "_masks") as [m|]; [|reflexivity].
  cbn [mbind result_bind].
  destruct m; cbn [mbind result_bind]; try apply Hiter.
  destruct l; cbn [mbind result_bind]; try reflexivity; apply Hiter.
Qed.

(** Reading [masks] never replaces an attribute that is set. *)
Lemma get_instances_keeps (self self' : gmap string dsval) instances k v :
  dataset.get_instances self = Ok (instances, self') ->
  self !! k = Some v -> self' !! k = Some v.
Proof.
  unfold dataset.get_instances, dataset.masks. intros H Hk.
  bind_inv H. bind_inv H. bind_inv H. destruct x1 as [m s].
  bind_inv H. bind_inv H. bind_inv H. injection H as _ <-.
  destruct (self !! "masks") eqn:Ec.
  - injection Hx1 as _ <-. exact Hk.
  - bind_inv Hx1. injection Hx1 as _ <-.
    rewrite lookup_insert_ne; [exact Hk|]. intros <-. congruence.
Qed.

(** A second reading of the instances, from the state the first one
    left, gives the same list. *)
Lemma get_instances_again (self self' : gmap string dsval) instances :
  dataset.get_instances self = Ok (instances, self') ->
  fst <$> dataset.get_instances self' = Ok instances.
Proof.
  unfold dataset.get_instances, dataset.masks. intros H.
  bind_inv H. bind_inv H. bind_inv H. destruct x1 as [m s].
  bind_inv H. bind_inv H. bind_inv H. injection H as <- <-.
  unfold dataset.attr in *.
  destruct (self !! "masks") eqn:Ec.
  - injection Hx1 as <- <-. rewrite Ec.
    destruct (self !! "_features"); [|discriminate]. injection Hx as ->.
    destruct (self !! "_lbs"); [|discriminate]. injection Hx0 as ->.
    cbn [mbind result_bind]. rewrite Hx2, Hx3, Hx4. reflexivity.
  - bind_inv Hx1. injection Hx1 as <- <-.
    rewrite lookup_insert_eq, !lookup_insert_ne by discriminate.
    destruct (self !! "_features"); [|discriminate]. injection Hx as ->.
    destruct (self !! "_lbs"); [|discriminate]. injection Hx0 as ->.
    cbn [mbind result_bind]. rewrite Hx2, Hx3, Hx4. reflexivity.
Qed.

(** ** [Dataset.read_csv] and [Dataset.create_features] *)

Lemma read_csv_Ok fs (self self' : gmap string dsval) file_path :
  dataset.read_csv fs self file_path = Ok self' ->
  exists smiles lbs _masks,
    self' = <["_masks" := _masks]>
            (<["_lbs" := DNd lbs]> (<["_smiles" := DStrs smiles]> self)).
Proof.
  unfold dataset.read_csv. intros H.
  bind_inv H. bind_inv H. bind_inv H. bind_inv H. bind_inv H. bind_inv H.
  bind_inv H. bind_inv H. injection H as <-. eauto.
Qed.

Section Prepare.

Variable rdkit morgan : string -> result nd.

Notation create_features := (dataset.create_features rdkit morgan).
Notation prepare := (dataset.prepare rdkit morgan).

Lemma create_features_Ok (self self' : gmap string dsval) cfg :
  create_features self cfg = Ok self' ->
  exists features, self' = <["_features" := features]> self.
Proof.
  unfold dataset.create_features. intros H. bind_inv H. bind_inv H.
  destruct (negb (dataset.ne_str (dataset.feature_type cfg) "rdkit")).
  { bind_inv H. bind_inv H. injection H as <-. eauto. }
  destruct (negb (dataset.ne_str (dataset.feature_type cfg) "morgan")).
  { bind_inv H. bind_inv H. injection H as <-. eauto. }
  injection H as <-. eauto.
Qed.

(** The branch of [prepare] that loads the cache. *)
Lemma prepare_hit fs (self : gmap string dsval) cfg partition pp :
  partition ∈ ["train"; "valid"; "test"] ->
  dataset.preprocessed_path cfg partition = Ok pp ->
  uses_cache fs cfg pp = true ->
  prepare fs self cfg partition
  = (self1 ← dataset.load fs self pp;
     '(instances, self2) ← dataset.get_instances self1;
     Ok (<["data_instances" := DInstances instances]> self2, fs)).
Proof.
  intros Hp Hpp Hc. unfold dataset.prepare.
  rewrite (bool_decide_eq_true_2 _ Hp). cbn [negb].
  rewrite Hpp. cbn [mbind result_bind].
  unfold uses_cache in Hc. rewrite Hc.
  destruct (dataset.load fs self pp); reflexivity.
Qed.

(** The branch of [prepare] that reads the CSV and computes. *)
Lemma prepare_miss fs (self : gmap string dsval) cfg partition pp :
  partition ∈ ["train"; "valid"; "test"] ->
  dataset.preprocessed_path cfg partition = Ok pp ->
  uses_cache fs cfg pp = false ->
  prepare fs self cfg partition
  = (csv ← dataset.csv_path cfg partition;
     self0 ← (if os.exists_ fs csv then dataset.read_csv fs self csv
              else Raise FileNotFoundError);
     self1 ← create_features self0 cfg;
     fs' ← (if dataset.is_true (dataset.disable_dataset_saving cfg) then Ok fs
            else dataset.save fs self1 pp);
     '(instances, self2) ← dataset.get_instances self1;
     Ok (<["data_instances" := DInstances instances]> self2, fs')).
Proof.
  intros Hp Hpp Hc. unfold dataset.prepare.
  rewrite (bool_decide_eq_true_2 _ Hp). cbn [negb].
  rewrite Hpp. cbn [mbind result_bind].
  unfold uses_cache in Hc. rewrite Hc.
  destruct (dataset.csv_path cfg partition) as [csv|]; [|reflexivity].
  cbn [mbind result_bind].
  assert (Hne : String.eqb csv "" = false -> True) by auto.
  destruct (String.eqb csv "") eqn:Ecsv.
  - apply String.eqb_eq in Ecsv. subst csv. cbn [negb andb].
    assert (os.exists_ fs "" = false) as -> by reflexivity. reflexivity.
  - cbn [negb andb]. destruct (os.exists_ fs csv); [|reflexivity].
    destruct (dataset.read_csv fs self csv) as [self0|]; [|reflexivity].
    cbn [mbind result_bind].
    destruct (create_features self0 cfg) as [self1|]; [|reflexivity].
    cbn [mbind result_bind].
    destruct (dataset.is_true (dataset.disable_dataset_saving cfg));
      cbn [negb mbind result_bind]; [reflexivity|].
    destruct (dataset.save fs self1 pp); reflexivity.
Qed.

(** A call of [prepare] that returns was given one of the three
    partitions and a configuration with a cache path. *)
Lemma prepare_Ok_path fs (self : gmap string dsval) cfg partition r :
  prepare fs self cfg partition = Ok r ->
  partition ∈ ["train"; "valid"; "test"]
  /\ exists pp, dataset.preprocessed_path cfg partition = Ok pp.
Proof.
  unfold dataset.prepare. intros H.
  destruct (bool_decide (partition ∈ ["train"; "valid"; "test"])) eqn:E;
    [|discriminate].
  apply bool_decide_eq_true_1 in E. split; [exact E|].
  cbn [negb] in H. bind_inv H. eauto.
Qed.

End Prepare.

(** ** [Dataset.prepare]: where the cache is *)

Section PrepareCache.

Variable rdkit morgan : string -> result nd.

Notation create_features := (dataset.create_features rdkit morgan).
Notation prepare := (dataset.prepare rdkit morgan).
Notation private := (fun kv : string * dsval => dataset.private_attr (fst kv) = true).

(** The cache path, component by component. *)
Lemma preprocessed_path_Ok cfg partition pp :
  dataset.preprocessed_path cfg partition = Ok pp ->
  exists d,
    dataset.data_dir cfg = Some d
    /\ pp = posixpath.normpath
              (posixpath.join d
                 [ "processed";
                   (if dataset.ne_str (dataset.feature_type cfg) "none"
                    then args.format_str (dataset.model_name cfg) +:+ "-"
                         +:+ args.format_str (dataset.feature_type cfg)
                    else args.format_str (dataset.model_name cfg));
                   partition +:+ ".pt" ]).
Proof.
  unfold dataset.preprocessed_path, dataset.method_identifier. intros H.
  bind_inv H. bind_inv H. injection H as <-.
  destruct (dataset.data_dir cfg) as [d|]; [|discriminate].
  injection Hx as <-. exists d. split; [reflexivity|].
  destruct (dataset.ne_str (dataset.feature_type cfg) "none").
  - injection Hx0 as <-. reflexivity.
  - destruct (dataset.model_name cfg); [|discriminate].
    injection Hx0 as <-. reflexivity.
Qed.

Lemma private_after_instances (self1 self2 : gmap string dsval) instances v :
  dataset.get_instances self1 = Ok (instances, self2) ->
  filter private (<["data_instances" := v]> self2) = filter private self1.
Proof.
  intros H. rewrite map_filter_insert_not by (intros y; simpl; discriminate).
  unfold dataset.get_instances, dataset.masks in H.
  bind_inv H. bind_inv H. bind_inv H. destruct x1 as [m s].
  bind_inv H. bind_inv H. bind_inv H. injection H as _ <-.
  destruct (self1 !! "masks").
  - injection Hx1 as _ <-. reflexivity.
  - bind_inv Hx1. injection Hx1 as _ <-.
    apply map_filter_insert_not. intros y. simpl. discriminate.
Qed.

(** C4, amended. Whenever [prepare] returns, the cache it used is at
    [data_dir/processed/{model_name}-{feature_type}/{partition}.pt] when
    [feature_type] is not ['none'], and at
    [data_dir/processed/{model_name}/{partition}.pt] when it is. If that
    path exists and the cache is not ignored, the attributes of the file
    are the ones of the dataset and the file system is as before;
    otherwise, unless saving is disabled, the private attributes of the
    dataset are in that file, and no other file is created or
    changed. *)
Theorem prepare_cache_location fs (self self' : gmap string dsval) cfg partition fs' :
  prepare fs self cfg partition = Ok (self', fs') ->
  exists d,
    dataset.data_dir cfg = Some d
    /\ let path :=
         posixpath.normpath
           (posixpath.join d
              [ "processed";
                (if dataset.ne_str (dataset.feature_type cfg) "none"
                 then args.format_str (dataset.model_name cfg) +:+ "-"
                      +:+ args.format_str (dataset.feature_type cfg)
                 else args.format_str (dataset.model_name cfg));
                partition +:+ ".pt" ]) in
       if uses_cache fs cfg path then
         fs' = fs
         /\ exists attr_dict,
              os.read fs path = Ok (FPt attr_dict)
              /\ forall k v, attr_dict !! k = Some v -> k <> "data_instances" ->
                             self' !! k = Some v
       else if dataset.is_true (dataset.disable_dataset_saving cfg) then
         fs' = fs
       else
         os.read fs' path = Ok (FPt (filter private self'))
         /\ forall q c, fs' !! q = Some (NFile c) ->
                        q = posixpath.normpath path \/ fs !! q = Some (NFile c).
Proof.
  intros H.
  destruct (prepare_Ok_path rdkit morgan _ _ _ _ _ H) as (Hp & pp & Hpp).
  destruct (preprocessed_path_Ok _ _ _ Hpp) as (d & Hd & Epp).
  exists d. split; [exact Hd|]. rewrite <- Epp. cbv zeta.
  destruct (uses_cache fs cfg pp) eqn:Ec.
  - rewrite (prepare_hit rdkit morgan _ _ _ _ _ Hp Hpp Ec) in H.
    apply bind_Ok in H as (self1 & Hload & H).
    apply bind_Ok in H as ([instances self2] & Hinst & H).
    injection H as <- <-. split; [reflexivity|].
    apply dataset_load_Ok in Hload as (attr_dict & Hread & Hlook).
    exists attr_dict. split; [exact Hread|].
    intros k v Hk Hne. rewrite lookup_insert_ne by congruence.
    apply (get_instances_keeps _ _ _ _ _ Hinst). rewrite Hlook, Hk. reflexivity.
  - rewrite (prepare_miss rdkit morgan _ _ _ _ _ Hp Hpp Ec) in H.
    apply bind_Ok in H as (csv & _ & H).
    apply bind_Ok in H as (self0 & _ & H).
    apply bind_Ok in H as (self1 & _ & H).
    apply bind_Ok in H as (fs1 & Hsave & H).
    apply bind_Ok in H as ([instances self2] & Hinst & H).
    injection H as <- <-.
    destruct (dataset.is_true (dataset.disable_dataset_saving cfg)).
    + injection Hsave as <-. reflexivity.
    + apply dataset_save_Ok in Hsave as (Hread & _ & Hfiles).
      rewrite (private_after_instances _ _ _ _ Hinst). split; assumption.
Qed.

End PrepareCache.

(** With RDKit features the cache of the training split is written at
    [data/processed/DNN-rdkit/train.pt]. *)
Lemma prepare_cache_location_witness :
  exists self' fs',
    dataset.prepare gen_length gen_length fs_data dataset.__init__
      (cfg_dnn "rdkit" false false) "train" = Ok (self', fs')
    /\ os.read fs' "data/processed/DNN-rdkit/train.pt"
       = Ok (FPt (filter (fun kv => dataset.private_attr (fst kv) = true) self')).
Proof.
  destruct_Ok (dataset.prepare gen_length gen_length fs_data dataset.__init__
                 (cfg_dnn "rdkit" false false) "train") r E.
  destruct r as [self' fs']. exists self', fs'. split; [reflexivity|].
  destruct (prepare_cache_location gen_length gen_length _ _ _ _ _ _ E)
    as (d & Hd & H).
  injection Hd as <-. cbv zeta in H.
  match type of H with
  | (if ?c then _ else _) =>
      assert (Hc : c = false) by (vm_compute; reflexivity); rewrite Hc in H
  end.
  cbn [dataset.is_true dataset.disable_dataset_saving cfg_dnn] in H.
  exact (proj1 H).
Defined.

(** Without features ([feature_type] is ['none']) the cache is at
    [data/processed/DNN/train.pt], not at the path with
    [{model_name}-{feature_type}], where nothing is written. *)
Lemma cache_path_without_features :
  dataset.preprocessed_path (cfg_dnn "none" false false) "train"
  = Ok "data/processed/DNN/train.pt"
  /\ spec_cache_path (cfg_dnn "none" false false) "train"
     = Ok "data/processed/DNN-none/train.pt"
  /\ (r ← dataset.prepare gen_length gen_length fs_data dataset.__init__
            (cfg_dnn "none" false false) "train";
      Ok (os.exists_ (snd r) "data/processed/DNN/train.pt",
          os.exists_ (snd r) "data/processed/DNN-none/train.pt"))
     = Ok (true, false).
Proof. repeat split; vm_compute; reflexivity. Qed.

(** ** [Dataset.prepare]: the second call *)

Lemma private_lookup (m : gmap string dsval) k :
  filter (fun kv : string * dsval => dataset.private_attr (fst kv) = true) m !! k
  = if dataset.private_attr k then m !! k else None.
Proof.
  rewrite map_lookup_filter. destruct (m !! k) as [v|]; simpl.
  - destruct (dataset.private_attr k) eqn:E.
    + rewrite option_guard_True by reflexivity. reflexivity.
    + rewrite option_guard_False by discriminate. reflexivity.
  - destruct (dataset.private_attr k); reflexivity.
Qed.

(** After [load] of a file that [save] wrote, a private attribute that
    was set at the time of [save] has the value it had then. *)
Lemma loaded_private (saved self : gmap string dsval) k v :
  dataset.private_attr k = true ->
  saved !! k = Some v ->
  map_fold (fun attr_ value self => <[attr_ := value]> self) self
    (filter (fun kv : string * dsval => dataset.private_attr (fst kv) = true) saved)
  !! k = Some v.
Proof.
  intros Hp Hk. rewrite set_attributes_lookup, private_lookup, Hp, Hk. reflexivity.
Qed.

(** What is not private comes from the dataset that [load] is called
    on. *)
Lemma loaded_public (saved self : gmap string dsval) k :
  dataset.private_attr k = false ->
  map_fold (fun attr_ value self => <[attr_ := value]> self) self
    (filter (fun kv : string * dsval => dataset.private_attr (fst kv) = true) saved)
  !! k = self !! k.
Proof.
  intros Hp. rewrite set_attributes_lookup, private_lookup, Hp. reflexivity.
Qed.

Section PrepareTwice.

Variable rdkit morgan : string -> result nd.

Notation create_features := (dataset.create_features rdkit morgan).
Notation prepare := (dataset.prepare rdkit morgan).

(** C6, amended. When the cache is neither ignored nor its saving
    disabled, and a first call of [prepare] on a new [Dataset] finds no
    cache and returns, a second call with the same configuration and
    partition, on a new [Dataset] or on the same one, takes the branch
    that loads the file the first call wrote: it leaves the file system
    as it is and produces the same [data_instances]. *)
Theorem prepare_second_call_loads_cache fs (self self1 self2 : gmap string dsval)
    cfg partition pp fs1 :
  dataset.is_true (dataset.ignore_preprocessed_dataset cfg) = false ->
  dataset.is_true (dataset.disable_dataset_saving cfg) = false ->
  dataset.preprocessed_path cfg partition = Ok pp ->
  os.exists_ fs pp = false ->
  self !! "masks" = None ->
  prepare fs self cfg partition = Ok (self1, fs1) ->
  self2 !! "masks" = None \/ self2 = self1 ->
  uses_cache fs1 cfg pp = true
  /\ exists self2',
       prepare fs1 self2 cfg partition = Ok (self2', fs1)
       /\ self2' !! "data_instances" = self1 !! "data_instances".
Proof.
  intros Hign Hdis Hpp Hnew Hfresh H Hself2.
  destruct (prepare_Ok_path rdkit morgan _ _ _ _ _ H) as (Hp & _).
  assert (Hmiss : uses_cache fs cfg pp = false).
  { unfold uses_cache. rewrite Hnew. reflexivity. }
  rewrite (prepare_miss rdkit morgan _ _ _ _ _ Hp Hpp Hmiss) in H.
  apply bind_Ok in H as (csv & _ & H).
  apply bind_Ok in H as (self0 & Hcsv & H).
  apply bind_Ok in H as (selfm & Hfeat & H).
  apply bind_Ok in H as (fs1' & Hsave & H).
  apply bind_Ok in H as ([instances s2] & Hinst & H).
  injection H as <- <-. rewrite Hdis in Hsave.
  destruct (os.exists_ fs csv); [|discriminate].
  apply read_csv_Ok in Hcsv as (smiles & lbs & _masks & ->).
  apply create_features_Ok in Hfeat as (features & ->).
  set (selfm := <["_features" := features]> _) in *.
  apply dataset_save_Ok in Hsave as (Hread & Hexists & _).
  assert (Hhit : uses_cache fs1' cfg pp = true).
  { unfold uses_cache. rewrite Hexists, Hign. reflexivity. }
  split; [exact Hhit|].
  rewrite (prepare_hit rdkit morgan _ _ _ _ _ Hp Hpp Hhit).
  rewrite (dataset_load_reads _ self2 _ _ Hread). cbn [mbind result_bind].
  set (loaded := map_fold _ self2 _).
  assert (Hf : loaded !! "_features" = Some features).
  { apply loaded_private; [reflexivity|]. apply lookup_insert_eq. }
  assert (Hl : loaded !! "_lbs" = Some (DNd lbs)).
  { apply loaded_private; [reflexivity|]. unfold selfm.
    rewrite !lookup_insert_ne by discriminate. apply lookup_insert_eq. }
  assert (Hm : loaded !! "_masks" = Some _masks).
  { apply loaded_private; [reflexivity|]. unfold selfm.
    rewrite lookup_insert_ne by discriminate. apply lookup_insert_eq. }
  assert (Hc : loaded !! "masks" = self2 !! "masks").
  { apply loaded_public. reflexivity. }
  assert (Hsame : fst <$> dataset.get_instances loaded = Ok instances).
  { destruct Hself2 as [Hnone | ->].
    - rewrite (get_instances_ext loaded selfm).
      + rewrite Hinst. reflexivity.
      + rewrite Hf. symmetry. apply lookup_insert_eq.
      + rewrite Hl. symmetry. unfold selfm.
        rewrite !lookup_insert_ne by discriminate. apply lookup_insert_eq.
      + rewrite Hm. symmetry. unfold selfm.
        rewrite lookup_insert_ne by discriminate. apply lookup_insert_eq.
      + rewrite Hc, Hnone. symmetry. unfold selfm.
        rewrite !lookup_insert_ne by discriminate. exact Hfresh.
    - rewrite (get_instances_ext loaded s2).
      + apply (get_instances_again _ _ _ Hinst).
      + rewrite Hf. symmetry. apply (get_instances_keeps _ _ _ _ _ Hinst).
        apply lookup_insert_eq.
      + rewrite Hl. symmetry. apply (get_instances_keeps _ _ _ _ _ Hinst).
        unfold selfm. rewrite !lookup_insert_ne by discriminate.
        apply lookup_insert_eq.
      + rewrite Hm. symmetry. apply (get_instances_keeps _ _ _ _ _ Hinst).
        unfold selfm. rewrite lookup_insert_ne by discriminate.
        apply lookup_insert_eq.
      + rewrite Hc. apply lookup_insert_ne. discriminate. }
  destruct (dataset.get_instances loaded) as [[instances' s2']|e];
    [|discriminate].
  injection Hsame as ->. cbn [mbind result_bind].
  eexists. split; [reflexivity|].
  rewrite !lookup_insert_eq. reflexivity.
Qed.

End PrepareTwice.

(** Two calls on new datasets for the training split with RDKit features:
    the second finds the cache and gives the same instances. *)
Lemma prepare_second_call_loads_cache_witness :
  exists self1 fs1 self2',
    dataset.prepare gen_length gen_length fs_data dataset.__init__
      (cfg_dnn "rdkit" false false) "train" = Ok (self1, fs1)
    /\ dataset.prepare gen_length gen_length fs1 dataset.__init__
         (cfg_dnn "rdkit" false false) "train" = Ok (self2', fs1)
    /\ self2' !! "data_instances" = self1 !! "data_instances".
Proof.
  destruct_Ok (dataset.prepare gen_length gen_length fs_data dataset.__init__
                 (cfg_dnn "rdkit" false false) "train") r E.
  destruct r as [self1 fs1].
  destruct (prepare_second_call_loads_cache gen_length gen_length
              fs_data dataset.__init__ self1 dataset.__init__
              (cfg_dnn "rdkit" false false) "train"
              "data/processed/DNN-rdkit/train.pt" fs1)
    as (_ & self2' & H2 & Hsame); try reflexivity.
  - exact E.
  - left. reflexivity.
  - exists self1, fs1, self2'. split; [reflexivity|]. split; assumption.
Defined.

(** With [disable_dataset_saving] the first call writes no cache, and
    with [ignore_preprocessed_dataset] the second call does not take the
    branch that loads the one the first call wrote. *)
Lemma prepare_second_call_without_cache :
  (r ← dataset.prepare gen_length gen_length fs_data dataset.__init__
         (cfg_dnn "rdkit" false true) "train";
   Ok (os.exists_ (snd r) "data/processed/DNN-rdkit/train.pt"))
  = Ok false
  /\ (r ← dataset.prepare gen_length gen_length fs_data dataset.__init__
            (cfg_dnn "rdkit" true false) "train";
      Ok (os.exists_ (snd r) "data/processed/DNN-rdkit/train.pt",
          uses_cache (snd r) (cfg_dnn "rdkit" true false)
            "data/processed/DNN-rdkit/train.pt"))
     = Ok (true, false).
Proof. split; vm_compute; reflexivity. Qed.

(** ** [Trainer.get_loss] *)

Section TrainerLoss.

Local Open Scope Q_scope.

Variable super_get_loss : train.tensor -> train.batch -> Q.

Lemma fdiv_Some x y v : train.fdiv x y = Some v -> ~ y == 0 /\ v = x / y.
Proof.
  unfold train.fdiv. destruct (Qeq_bool y 0) eqn:E; [discriminate|].
  intros [= <-]. split; [|reflexivity]. apply Qeq_bool_neq. exact E.
Qed.

Lemma sum_scaled l masks :
  train.sum (map (fun m => l * m) masks) == l * train.sum masks.
Proof.
  induction masks as [|m masks IH]; simpl.
  - ring.
  - rewrite IH. ring.
Qed.

Lemma view_rows_data k t t' : train.view_rows k t = Ok t' -> train.t_data t' = train.t_data t.
Proof.
  unfold train.view_rows.
  destruct (_ || _)%bool; [discriminate|]. intros [= <-]. reflexivity.
Qed.

Lemma view_rows2_data j k t t' :
  train.view_rows2 j k t = Ok t' -> train.t_data t' = train.t_data t.
Proof.
  unfold train.view_rows2.
  destruct (_ || _)%bool; [discriminate|]. intros [= <-]. reflexivity.
Qed.

Lemma mse_loss_Some a b l :
  train.mse_loss a b = Ok (Some l) ->
  l = train.sum (train.squared_differences (train.t_data a) (train.t_data b))
      / inject_Z (Z.of_nat (length (train.t_data a))).
Proof.
  unfold train.mse_loss. destruct (_ && _)%bool; [|discriminate].
  intros [= H]. apply fdiv_Some in H as [_ ->]. reflexivity.
Qed.

(** The masks cancel: whenever the distance loss is a finite number, it
    is the mean of the squared differences over all entries, valid or
    not. *)
Lemma get_distance_loss_unmasked cfg atom_logits bond_logits b v :
  train.get_distance_loss cfg atom_logits bond_logits b = Ok (Some v) ->
  v == train.sum (train.squared_differences (train.t_data atom_logits)
                                            (train.t_data bond_logits))
       / inject_Z (Z.of_nat (length (train.t_data atom_logits))).
Proof.
  unfold train.get_distance_loss. intros H.
  apply bind_Ok in H as ([[a1 b1] m1] & H1 & H).
  apply bind_Ok in H as ([a2 b2] & H2 & H).
  apply bind_Ok in H as (loss & Hl & H). injection H as H.
  destruct loss as [l|]; [|discriminate].
  apply fdiv_Some in H as [Hne ->].
  apply mse_loss_Some in Hl. 
  assert (Ha : train.t_data a2 = train.t_data atom_logits
               /\ train.t_data b2 = train.t_data bond_logits).
  { assert (Ha1 : train.t_data a1 = train.t_data atom_logits
                  /\ train.t_data b1 = train.t_data bond_logits).
    { destruct (_ && _)%bool in H1.
      - apply bind_Ok in H1 as (a' & Ha' & H1).
        apply bind_Ok in H1 as (b' & Hb' & H1). injection H1 as <- <- _.
        split; [apply (view_rows_data _ _ _ Ha')|apply (view_rows_data _ _ _ Hb')].
      - injection H1 as <- <- _. split; reflexivity. }
    destruct Ha1 as [<- <-].
    destruct (_ && _)%bool in H2.
    - apply bind_Ok in H2 as (a' & Ha' & H2).
      apply bind_Ok in H2 as (b' & Hb' & H2). injection H2 as <- <-.
      split; [apply (view_rows2_data _ _ _ _ Ha')|apply (view_rows2_data _ _ _ _ Hb')].
    - injection H2 as <- <-. split; reflexivity. }
  destruct Ha as [Ea Eb]. rewrite Ea, Eb in Hl. rewrite <- Hl.
  rewrite sum_scaled. field. exact Hne.
Qed.

(** [get_loss] adds the two task losses and [dist_coff] times the
    distance loss. *)
Lemma get_loss_sum cfg atom_logits bond_logits b d :
  train.get_distance_loss cfg atom_logits bond_logits b = Ok (Some d) ->
  train.get_loss super_get_loss cfg [atom_logits; bond_logits] b
  = Ok (Some (super_get_loss atom_logits b + super_get_loss bond_logits b
              + train.dist_coff cfg * d)).
Proof. intros H. unfold train.get_loss. rewrite H. reflexivity. Qed.

End TrainerLoss.

(** C1, at the input where it fails. The two heads differ only on an
    entry whose mask is 0. The consistency term of the claim, the mean
    over the valid entries, is 0; [get_distance_loss] gives 1/2, the
    mean over both entries, and [get_loss] adds it to the task losses. *)
Theorem get_loss_consistency_term_unmasked :
  (exists s, train.spec_masked_mse (train.t_data atom_logits_ex)
               (train.t_data bond_logits_ex)
               (train.t_data (train.batch_masks batch_ex)) = Some s
             /\ (s == 0)%Q)
  /\ (exists d, train.get_distance_loss grover_cfg atom_logits_ex bond_logits_ex batch_ex
                = Ok (Some d)
                /\ (d == 1 # 2)%Q)
  /\ (exists x, train.get_loss zero_loss grover_cfg [atom_logits_ex; bond_logits_ex] batch_ex
                = Ok (Some x)
                /\ (x == 1 # 2)%Q).
Proof.
  repeat split; eexists; (split; [vm_compute; reflexivity|reflexivity]).
Qed.

(** * Further properties *)

(** ** [Arguments.__post_init__] *)

(** X1. For the methods that sample at test time, MC-Dropout and SWAG,
    the number of test runs after construction is above one: a given
    [n_test] above one is kept, any other becomes 20. For every other
    method [n_test] is left as given. *)
Theorem post_init_n_test (a a' : args.Arguments) apply_wandb :
  args.__post_init__ a = Ok (a', apply_wandb) ->
  if samples_at_test a then
    exists t t', args.n_test a = Some t
                 /\ args.n_test a' = Some t'
                 /\ t' = (if t >? 1 then t else 20)
                 /\ 1 < t'
  else args.n_test a' = args.n_test a.
Proof.
  unfold args.__post_init__, samples_at_test. intros H.
  apply bind_Ok in H as (d & _ & H). apply bind_Ok in H as (name & _ & H).
  apply bind_Ok in H as (n_test' & Ht & H).
  apply bind_Ok in H as (exceeds & _ & H). injection H as <- _. simpl.
  destruct (eq_str (args.uncertainty_method a) "MC-Dropout"
            || eq_str (args.uncertainty_method a) "SWAG")%bool.
  - apply bind_Ok in Ht as (more & Hgt & Ht). injection Ht as <-.
    apply gt_Ok in Hgt as (t & one & Ht & [= <-] & ->).
    exists t, (if t >? 1 then t else 20). rewrite Ht.
    destruct (t >? 1) eqn:E; repeat split; lia.
  - injection Ht as <-. reflexivity.
Qed.

Lemma post_init_n_test_witness :
  exists a' apply_wandb,
    args.__post_init__ arguments_mc_dropout = Ok (a', apply_wandb)
    /\ args.n_test a' = Some 20.
Proof.
  destruct_Ok (args.__post_init__ arguments_mc_dropout) r E.
  destruct r as [a' w]. exists a', w. split; [reflexivity|].
  pose proof (post_init_n_test _ _ _ E) as H.
  change (samples_at_test arguments_mc_dropout) with true in H.
  destruct H as (t & t' & Ht & Ht' & -> & _).
  injection Ht as <-. exact Ht'.
Defined.

(** X2. [apply_wandb] is true in the sense of [if] exactly when a project
    and a name are given and not empty and wandb is not disabled. It is
    not always a bool: it is the first falsy one of the project and the
    name when there is one. *)
Theorem post_init_apply_wandb (a a' : args.Arguments) apply_wandb :
  args.__post_init__ a = Ok (a', apply_wandb) ->
  truthy apply_wandb
  = (truthy (args.of_str (args.wandb_project a))
     && truthy (args.of_str (args.wandb_name a))
     && negb (truthy (args.of_bool (args.disable_wandb a))))%bool
  /\ (truthy (args.of_str (args.wandb_project a)) = false ->
      apply_wandb = args.of_str (args.wandb_project a)).
Proof.
  unfold args.__post_init__. intros H.
  apply bind_Ok in H as (d & _ & H). apply bind_Ok in H as (name & _ & H).
  apply bind_Ok in H as (n_test' & _ & H).
  apply bind_Ok in H as (exceeds & _ & H). injection H as _ <-.
  unfold args.and_and_not.
  destruct (truthy (args.of_str (args.wandb_project a))) eqn:Ep; simpl.
  - split; [|discriminate].
    destruct (truthy (args.of_str (args.wandb_name a))) eqn:En; simpl;
      [reflexivity|exact En].
  - split; [exact Ep|reflexivity].
Qed.

Lemma post_init_apply_wandb_witness :
  exists a' apply_wandb,
    args.__post_init__ arguments_mc_dropout = Ok (a', apply_wandb)
    /\ truthy apply_wandb = false.
Proof.
  destruct_Ok (args.__post_init__ arguments_mc_dropout) r E.
  destruct r as [a' w]. exists a', w. split; [reflexivity|].
  rewrite (proj1 (post_init_apply_wandb _ _ _ E)). reflexivity.
Defined.

(** X3. [__post_init__] returns exactly when none of the arguments it
    joins or compares is [None]; otherwise it raises [TypeError]. *)
Theorem post_init_completes_iff (a : args.Arguments) :
  if post_init_arguments_given a
  then exists r, args.__post_init__ a = Ok r
  else args.__post_init__ a = Raise TypeError.
Proof.
  unfold post_init_arguments_given, samples_at_test, args.__post_init__.
  destruct (args.data_dir a) as [d|]; [|reflexivity].
  destruct (args.dataset_name a) as [name|]; [|reflexivity].
  cbn [args.fspath mbind result_bind].
  destruct (eq_str (args.uncertainty_method a) "MC-Dropout"
            || eq_str (args.uncertainty_method a) "SWAG")%bool;
    destruct (args.n_test a) as [t|];
    destruct (args.k_swa_checkpoints a) as [k|];
    destruct (args.n_swa_epochs a) as [n|];
    simpl; eauto.
Qed.

(** ** [Config.n_lbs] outside its two branches *)

Section ConfigEdges.

Variable um : pyval.
Variable inh : list (string * args.class_attr).

Notation getattr := (args.getattr um inh).
Notation setattr := (args.setattr um inh).

(** X4. A classification [Config] whose [classes] have no length, as
    they are ([None]) until [get_meta] has set them, has no [n_lbs]:
    reading it raises [TypeError]. *)
Theorem n_lbs_without_classes (self : gmap string pyval) classes :
  getattr self "task_type" = Ok (VStr "classification") ->
  getattr self "classes" = Ok classes ->
  py_len classes = Raise TypeError ->
  args.n_lbs um inh self = Raise TypeError
  /\ args.cached_property "n_lbs" (args.n_lbs um inh) (delete "n_lbs" self)
     = Raise TypeError.
Proof.
  intros Ht Hc Hn.
  assert (H : forall s : gmap string pyval,
            getattr s "task_type" = Ok (VStr "classification") ->
            getattr s "classes" = Ok classes ->
            args.n_lbs um inh s = Raise TypeError).
  { intros s Hs1 Hs2. unfold args.n_lbs. rewrite Hs1. simpl.
    rewrite Hs2. simpl. rewrite Hn. reflexivity. }
  split; [apply H; assumption|].
  unfold args.cached_property. rewrite lookup_delete_eq.
  rewrite H; [reflexivity| |]; unfold args.getattr in *;
    rewrite lookup_delete_ne by discriminate; assumption.
Qed.

(** X6. A cached property is computed once: after a first access, the
    same value is returned whatever is assigned to other attributes
    afterwards, so a later change of the attributes it was computed from
    does not reach it. *)
Theorem cached_property_keeps_value name body (self self' : gmap string pyval) v k x :
  args.cached_property name body self = Ok (v, self') ->
  k <> name ->
  args.cached_property name body (<[k := x]> self') = Ok (v, <[k := x]> self').
Proof.
  intros H Hne.
  assert (Hc : self' !! name = Some v).
  { unfold args.cached_property in H. destruct (self !! name) eqn:E.
    - injection H as <- <-. exact E.
    - apply bind_Ok in H as (v' & _ & H). injection H as <- <-.
      apply lookup_insert_eq. }
  unfold args.cached_property.
  rewrite lookup_insert_ne by exact Hne. rewrite Hc. reflexivity.
Qed.

(** ** [Config.load] and read-only names *)

Lemma setattr_all_skips (items : list (string * pyval)) :
  forall self : gmap string pyval,
  Forall (fun kv => assignable_or_property um inh (fst kv) = true) items ->
  args.setattr_all um inh self items
  = Ok (assign_all (filter (fun kv => is_property um inh (fst kv) = false) items) self).
Proof.
  induction items as [|[k v] items IH]; intros self Hall; [reflexivity|].
  apply Forall_cons in Hall as [Hk Hall]. simpl in Hk.
  cbn [args.setattr_all]. unfold args.setattr.
  unfold assignable_or_property in Hk.
  destruct (args.class_lookup um inh k) as [[]|] eqn:E; try discriminate;
    cbn [except_AttributeError_pass mbind result_bind];
    rewrite (IH _ Hall);
    try (rewrite filter_cons_True
           by (unfold is_property; cbn [fst]; rewrite E; reflexivity);
         reflexivity).
  rewrite filter_cons_False
    by (unfold is_property; cbn [fst]; rewrite E; discriminate).
  reflexivity.
Qed.

(** X7. Unlike [get_meta], [load] does not stop at a key that names a
    property without setter: the key is skipped, and every other key of
    the file is assigned, new names included. *)
Theorem load_skips_properties fs (self : gmap string pyval)
    file_dir file_name file_path items :
  (os.isdir fs file_dir = true
   /\ file_path = posixpath.join file_dir [file_name +:+ ".json"])
  \/ (os.isdir fs file_dir = false /\ file_path = file_dir) ->
  os.read fs file_path = Ok (FJson (VDict items)) ->
  NoDup (map fst items) ->
  Forall (fun kv => assignable_or_property um inh (fst kv) = true) items ->
  exists loaded : gmap string pyval,
    args.load um inh fs self file_dir file_name = Ok loaded
    /\ (forall k v, (k, v) ∈ items -> is_property um inh k = false ->
                    loaded !! k = Some v)
    /\ (forall k, is_property um inh k = true -> loaded !! k = self !! k).
Proof.
  intros Hcase Hread Hnd Hall.
  assert (Hfile : os.isfile fs file_path = true).
  { unfold os.isfile. unfold os.read in Hread.
    destruct (os.stat fs file_path) as [[|c]|]; try discriminate. reflexivity. }
  rewrite (load_reads um inh fs self file_dir file_name file_path items
             Hcase Hfile Hread).
  rewrite (setattr_all_skips items self Hall).
  set (kept := filter (fun kv => is_property um inh (fst kv) = false) items).
  assert (Hsub : forall k, k ∈ map fst kept -> k ∈ map fst items /\ is_property um inh k = false).
  { intros k Hk. apply list_elem_of_In, in_map_iff in Hk as ([k' v'] & <- & Hin).
    apply list_elem_of_In, list_elem_of_filter in Hin as [Hp Hin]. split.
    - apply list_elem_of_In, in_map_iff. exists (k', v').
      split; [reflexivity|]. apply list_elem_of_In. exact Hin.
    - exact Hp. }
  eexists. split; [reflexivity|]. split.
  - intros k v Hin Hp. apply assign_all_lookup.
    + unfold kept. clear -Hnd. induction items as [|[k0 v0] items IH]; [constructor|].
      simpl in Hnd. apply NoDup_cons in Hnd as [Hk0 Hnd].
      destruct (decide (is_property um inh k0 = false)) as [E|E].
      * rewrite filter_cons_True by exact E. simpl. apply NoDup_cons. split.
        -- intros Hin. apply Hk0.
           apply list_elem_of_In, in_map_iff in Hin as ([k' v'] & <- & Hin).
           apply list_elem_of_In, list_elem_of_filter in Hin as [_ Hin].
           apply list_elem_of_In, in_map_iff. exists (k', v').
           split; [reflexivity|]. apply list_elem_of_In. exact Hin.
        -- apply IH. exact Hnd.
      * rewrite filter_cons_False by exact E. apply IH. exact Hnd.
    + unfold kept. apply list_elem_of_filter. split; assumption.
  - intros k Hp. apply assign_all_other. intros Hk.
    apply Hsub in Hk as [_ Hk]. congruence.
Qed.

End ConfigEdges.

Lemma n_lbs_without_classes_witness :
  args.n_lbs um0 cpython_inherited config_fresh = Raise TypeError.
Proof.
  apply (n_lbs_without_classes um0 cpython_inherited config_fresh VNone);
    reflexivity.
Defined.

(** X5 on an example: the task type ['ranking'] gives [None]. *)
Lemma n_lbs_other_task_type_witness :
  args.n_lbs um0 cpython_inherited config_ranking = Ok VNone.
Proof.
  apply (n_lbs_other_task_type um0 cpython_inherited config_ranking (VStr "ranking"));
    reflexivity.
Defined.

(** [n_lbs] read for two classes stays 1 after three classes are set. *)
Lemma cached_property_keeps_value_witness :
  exists self',
    args.cached_property "n_lbs" (args.n_lbs um0 cpython_inherited) config_binary
    = Ok (VInt 1, self')
    /\ args.cached_property "n_lbs" (args.n_lbs um0 cpython_inherited)
         (<["classes" := VList [VInt 0; VInt 1; VInt 2]]> self')
       = Ok (VInt 1, <["classes" := VList [VInt 0; VInt 1; VInt 2]]> self').
Proof.
  eexists. split; [reflexivity|].
  apply (cached_property_keeps_value _ _ config_binary); [reflexivity|discriminate].
Defined.

(** A file that names [lr], [device] and [seed]: the seed after the
    read-only name is loaded, and no [device] entry is made. *)
Lemma load_skips_properties_witness :
  exists loaded,
    args.load um0 cpython_inherited fs_config_device config_fresh "output" "config"
    = Ok loaded
    /\ loaded !! "seed" = Some (VInt 7)
    /\ loaded !! "device" = None.
Proof.
  destruct (load_skips_properties um0 cpython_inherited fs_config_device config_fresh
              "output" "config" "output/config.json"
              [ ("lr", VFloat (1 # 100)); ("device", VStr "cuda"); ("seed", VInt 7) ])
    as (loaded & Hload & Hset & Hskip).
  - left. split; reflexivity.
  - reflexivity.
  - apply (bool_decide_unpack _). vm_compute. reflexivity.
  - repeat (apply Forall_cons; split; [reflexivity|]). apply Forall_nil. exact I.
  - exists loaded. split; [exact Hload|]. split.
    + apply Hset; [|reflexivity].
      apply list_elem_of_further, list_elem_of_further, list_elem_of_here.
    + rewrite Hskip; reflexivity.
Defined.

(** ** [Config.save] with a bare file name *)

Lemma rsplit_sep_no_sep s : no_sep s = true -> posixpath.rsplit_sep s = ("", s).
Proof.
  induction s as [|c s IH]; [reflexivity|].
  cbn [no_sep posixpath.rsplit_sep].
  destruct (Ascii.eqb c posixpath.sep) eqn:E; [discriminate|].
  cbn [negb andb]. intros Hs. rewrite (IH Hs). reflexivity.
Qed.

Lemma split_no_sep s : no_sep s = true -> posixpath.split s = ("", s).
Proof. intros Hs. unfold posixpath.split. rewrite (rsplit_sep_no_sep s Hs). reflexivity. Qed.

(** X8. [save] to a path without any slash, such as ["config.json"],
    which is not an existing directory, raises [FileNotFoundError] though
    the working directory exists: the directory part of the path is the
    empty string, which [os.path.isdir] refuses. *)
Theorem save_bare_file_name um inh fs (self : gmap string pyval) file_dir file_name :
  no_sep file_dir = true ->
  os.isdir fs file_dir = false ->
  args.save um inh fs self file_dir file_name = Raise FileNotFoundError.
Proof.
  intros Hs Hd. unfold args.save. rewrite Hd, (split_no_sep file_dir Hs).
  reflexivity.
Qed.

Lemma save_bare_file_name_witness :
  args.save um0 cpython_inherited fs_results config_regression "config.json" "config"
  = Raise FileNotFoundError.
Proof. apply save_bare_file_name; reflexivity. Defined.

(** ** [Dataset.save] then [Dataset.load] *)

(** X9. After [save], [load] of the same path into any dataset returns,
    and sets every attribute whose name matches [^_[a-z]] to the value it
    had when it was saved; an attribute of any other name
    ([data_instances], the cached [masks]) stays as the loading dataset
    had it. *)
Theorem dataset_save_load fs (self : gmap string dsval) file_path fs' :
  dataset.save fs self file_path = Ok fs' ->
  forall receiver : gmap string dsval,
  exists loaded : gmap string dsval,
    dataset.load fs' receiver file_path = Ok loaded
    /\ (forall k v, dataset.private_attr k = true -> self !! k = Some v ->
                    loaded !! k = Some v)
    /\ (forall k, dataset.private_attr k = false -> loaded !! k = receiver !! k).
Proof.
  intros Hsave receiver. apply dataset_save_Ok in Hsave as (Hread & _ & _).
  eexists. split; [apply (dataset_load_reads _ _ _ _ Hread)|]. split.
  - intros k v Hp Hk. apply loaded_private; assumption.
  - intros k Hp. apply loaded_public. exact Hp.
Qed.

Lemma dataset_save_load_witness :
  exists fs' loaded,
    dataset.save fs_data dataset_two "data/processed/DNN/train.pt" = Ok fs'
    /\ dataset.load fs' dataset.__init__ "data/processed/DNN/train.pt" = Ok loaded
    /\ loaded !! "_smiles" = Some (DStrs ["CCO"; "CC"])
    /\ loaded !! "masks" = None.
Proof.
  destruct_Ok (dataset.save fs_data dataset_two "data/processed/DNN/train.pt") fs' E.
  destruct (dataset_save_load _ _ _ _ E dataset.__init__)
    as (loaded & Hload & Hpriv & Hpub).
  exists fs', loaded. split; [reflexivity|]. split; [exact Hload|]. split.
  - apply Hpriv; reflexivity.
  - rewrite Hpub; reflexivity.
Defined.

(** ** [Dataset.update_lbs] *)

Lemma pack_instances_fields fl : forall ll ml,
  length ll = length fl -> length ml = length fl ->
  map inst_features (dataset.pack_instances fl ll ml) = fl
  /\ map inst_lbs (dataset.pack_instances fl ll ml) = ll
  /\ map inst_masks (dataset.pack_instances fl ll ml) = ml.
Proof.
  induction fl as [|f fl IH]; intros [|l ll] [|m ml] Hl Hm;
    try discriminate; [repeat split|].
  injection Hl as Hl. injection Hm as Hm.
  destruct (IH ll ml Hl Hm) as (Hf & Hl' & Hm'). simpl.
  rewrite Hf, Hl', Hm'. repeat split.
Qed.

(** X10. [update_lbs] puts the rows of the new labels into the instances
    and keeps their features and masks. The masks are the cached ones:
    once [masks] has been read, new labels do not recompute it. *)
Theorem update_lbs_instances (self : gmap string dsval) features fl m ml ll :
  self !! "_features" = Some features ->
  dataset.iter features = Ok fl ->
  self !! "masks" = Some m ->
  dataset.iter m = Ok ml ->
  length ll = length fl ->
  length ml = length fl ->
  exists (self' : gmap string dsval) instances,
    dataset.update_lbs self (Arr ll) = Ok self'
    /\ self' !! "data_instances" = Some (DInstances instances)
    /\ self' !! "_lbs" = Some (DNd (Arr ll))
    /\ self' !! "masks" = Some m
    /\ map inst_lbs instances = ll
    /\ map inst_features instances = fl
    /\ map inst_masks instances = ml.
Proof.
  intros Hf Hfl Hm Hml Hlen1 Hlen2.
  destruct (pack_instances_fields fl ll ml Hlen1 Hlen2) as (Pf & Pl & Pm).
  exists (<["data_instances" := DInstances (dataset.pack_instances fl ll ml)]>
          (<["_lbs" := DNd (Arr ll)]> self)),
         (dataset.pack_instances fl ll ml).
  split; [|repeat split; try assumption].
  - unfold dataset.update_lbs, dataset.get_instances, dataset.masks, dataset.attr.
    rewrite lookup_insert_eq, !lookup_insert_ne by discriminate.
    rewrite Hf, Hm. cbn [mbind result_bind]. rewrite Hfl, Hml.
    reflexivity.
  - apply lookup_insert_eq.
  - rewrite lookup_insert_ne by discriminate. apply lookup_insert_eq.
  - rewrite !lookup_insert_ne by discriminate. exact Hm.
Qed.

Lemma update_lbs_instances_witness :
  exists self' instances,
    dataset.update_lbs dataset_two (Arr [Arr [Scalar (SInt 1)]; Arr [Scalar (SInt 1)]])
    = Ok self'
    /\ self' !! "data_instances" = Some (DInstances instances)
    /\ map inst_lbs instances = [Arr [Scalar (SInt 1)]; Arr [Scalar (SInt 1)]].
Proof.
  destruct (update_lbs_instances dataset_two
              (DNds [Arr [Scalar (SFloat 3)]; Arr [Scalar (SFloat 2)]])
              [Arr [Scalar (SFloat 3)]; Arr [Scalar (SFloat 2)]]
              (DNd (Arr [Arr [Scalar (SInt 1)]; Arr [Scalar (SInt 1)]]))
              [Arr [Scalar (SInt 1)]; Arr [Scalar (SInt 1)]]
              [Arr [Scalar (SInt 1)]; Arr [Scalar (SInt 1)]])
    as (self' & instances & H & Hi & _ & _ & Hl & _); try reflexivity.
  exists self', instances. repeat split; assumption.
Defined.

(** ** One instance per row *)

Lemma mapM_length {A B} (f : A -> result B) l l' :
  dataset.mapM f l = Ok l' -> length l' = length l.
Proof.
  revert l'. induction l as [|x l IH]; intros l' H.
  - injection H as <-. reflexivity.
  - simpl in H. apply bind_Ok in H as (y & _ & H).
    apply bind_Ok in H as (ys & Hys & H). injection H as <-.
    simpl. rewrite (IH _ Hys). reflexivity.
Qed.

Lemma asarray_rows rows a :
  asarray rows = Ok a -> exists l, a = Arr l /\ length l = length rows.
Proof.
  unfold asarray. destruct (rectangular (Arr rows)); [|discriminate].
  destruct (exists_entry is_float (Arr rows)); intros [= <-].
  - simpl. eexists. split; [reflexivity|]. apply length_map.
  - eauto.
Qed.

Lemma pack_instances_length fl : forall ll ml,
  length ll = length fl -> length ml = length fl ->
  length (dataset.pack_instances fl ll ml) = length fl.
Proof.
  induction fl as [|f fl IH]; intros [|l ll] [|m ml] Hl Hm;
    try discriminate; [reflexivity|].
  simpl in *. rewrite IH; [reflexivity| |]; lia.
Qed.

Lemma read_csv_rows fs (self self' : gmap string dsval) file_path df n :
  os.read fs file_path = Ok (FCsv df) ->
  frame_rows df n ->
  dataset.read_csv fs self file_path = Ok self' ->
  exists smiles lbs _masks,
    self' = <["_masks" := _masks]>
            (<["_lbs" := DNd (Arr lbs)]> (<["_smiles" := DStrs smiles]> self))
    /\ length smiles = n /\ length lbs = n
    /\ (_masks = DNone \/ exists ml, _masks = DNd (Arr ml) /\ length ml = n).
Proof.
  intros Hread (smiles & labels & cells & Hs & Hl & Hm & Ns & Nl & Nm).
  unfold dataset.read_csv. rewrite Hread. cbn [mbind result_bind].
  rewrite Hs, Hl, Hm. cbn [mbind result_bind dataset.column]. intros H.
  apply bind_Ok in H as (literals & Hlit & H).
  apply bind_Ok in H as (lbs & Hlbs & H).
  apply bind_Ok in H as (_masks & Hmasks & H). injection H as <-.
  apply asarray_rows in Hlbs as (l & -> & Hlen).
  apply mapM_length in Hlit.
  exists smiles, l, _masks. split; [reflexivity|].
  split; [exact Ns|]. split; [congruence|].
  destruct (negb (forallb dataset.isnull cells)).
  - apply bind_Ok in Hmasks as (mlit & Hmlit & Hmasks).
    apply bind_Ok in Hmasks as (a & Ha & Hmasks). injection Hmasks as <-.
    apply asarray_rows in Ha as (ml & -> & Hml).
    apply mapM_length in Hmlit. right. exists ml. split; [reflexivity|congruence].
  - injection Hmasks as <-. left. reflexivity.
Qed.

Section Rows.

Variable rdkit morgan : string -> result nd.

Lemma create_features_rows (self self' : gmap string dsval) cfg smiles :
  self !! "_smiles" = Some (DStrs smiles) ->
  dataset.create_features rdkit morgan self cfg = Ok self' ->
  exists features fl,
    self' = <["_features" := features]> self
    /\ dataset.iter features = Ok fl
    /\ length fl = length smiles.
Proof.
  intros Hs. unfold dataset.create_features, dataset.attr. rewrite Hs.
  cbn [mbind result_bind]. intros H.
  destruct (negb (dataset.ne_str (dataset.feature_type cfg) "rdkit")).
  { apply bind_Ok in H as (u & _ & H). apply bind_Ok in H as (fl & Hfl & H).
    injection H as <-. apply mapM_length in Hfl. eauto. }
  destruct (negb (dataset.ne_str (dataset.feature_type cfg) "morgan")).
  { apply bind_Ok in H as (u & _ & H). apply bind_Ok in H as (fl & Hfl & H).
    injection H as <-. apply mapM_length in Hfl. eauto. }
  injection H as <-. eexists _, _. split; [reflexivity|].
  split; [reflexivity|]. apply length_replicate.
Qed.

(** X11. When [prepare] computes from the CSV, on a dataset whose masks
    have not been read, it makes one instance for each row of the file,
    and the length of the dataset is that number of rows. *)
Theorem prepare_one_instance_per_row fs (self self' : gmap string dsval)
    cfg partition pp csv df n fs' :
  dataset.preprocessed_path cfg partition = Ok pp ->
  uses_cache fs cfg pp = false ->
  dataset.csv_path cfg partition = Ok csv ->
  os.read fs csv = Ok (FCsv df) ->
  frame_rows df n ->
  self !! "masks" = None ->
  dataset.prepare rdkit morgan fs self cfg partition = Ok (self', fs') ->
  exists instances,
    self' !! "data_instances" = Some (DInstances instances)
    /\ length instances = n
    /\ dataset.__len__ self' = Ok n.
Proof.
  intros Hpp Hmiss Hcsv Hread Hrows Hfresh H.
  destruct (prepare_Ok_path rdkit morgan _ _ _ _ _ H) as (Hp & _).
  rewrite (prepare_miss rdkit morgan _ _ _ _ _ Hp Hpp Hmiss), Hcsv in H.
  cbn [mbind result_bind] in H.
  apply bind_Ok in H as (self0 & Hself0 & H).
  apply bind_Ok in H as (self1 & Hfeat & H).
  apply bind_Ok in H as (fs1 & _ & H).
  apply bind_Ok in H as ([instances self2] & Hinst & H). injection H as <- <-.
  destruct (os.exists_ fs csv); [|discriminate].
  apply (read_csv_rows _ _ _ _ _ _ Hread Hrows) in Hself0
    as (smiles & lbs & _masks & -> & Ns & Nl & Hmasks).
  apply (create_features_rows _ _ _ smiles) in Hfeat
    as (features & fl & -> & Hfl & Nf);
    [|rewrite !lookup_insert_ne by discriminate; apply lookup_insert_eq].
  assert (Hlen : dataset.__len__ self2 = Ok n).
  { unfold dataset.__len__, dataset.attr.
    rewrite (get_instances_keeps _ _ _ "_smiles" (DStrs smiles) Hinst).
    - simpl. rewrite Ns. reflexivity.
    - rewrite !lookup_insert_ne by discriminate. apply lookup_insert_eq. }
  exists instances. split; [apply lookup_insert_eq|]. split.
  - set (selfm := <["_features" := features]> _) in *.
    assert (Ef : selfm !! "_features" = Some features) by apply lookup_insert_eq.
    assert (El : selfm !! "_lbs" = Some (DNd (Arr lbs))).
    { unfold selfm. rewrite !lookup_insert_ne by discriminate.
      apply lookup_insert_eq. }
    assert (Em : selfm !! "_masks" = Some _masks).
    { unfold selfm. rewrite lookup_insert_ne by discriminate.
      apply lookup_insert_eq. }
    assert (Ec : selfm !! "masks" = None).
    { unfold selfm. rewrite !lookup_insert_ne by discriminate. exact Hfresh. }
    unfold dataset.get_instances, dataset.masks, dataset.masks_body,
      dataset.attr in Hinst.
    rewrite Ef, El, Ec, Em in Hinst. cbn [mbind result_bind] in Hinst.
    destruct Hmasks as [-> | (ml & -> & Nm)]; cbn [mbind result_bind] in Hinst.
    + rewrite Hfl in Hinst.
      cbn [mbind result_bind dataset.iter astype_int ones_like] in Hinst.
      injection Hinst as <- _. rewrite pack_instances_length.
      * congruence.
      * congruence.
      * rewrite !length_map. congruence.
    + rewrite Hfl in Hinst. cbn [mbind result_bind dataset.iter] in Hinst.
      injection Hinst as <- _. rewrite pack_instances_length; congruence.
  - unfold dataset.__len__, dataset.attr in *.
    rewrite lookup_insert_ne by discriminate. exact Hlen.
Qed.

End Rows.

Lemma prepare_one_instance_per_row_witness :
  exists self' fs' instances,
    dataset.prepare gen_length gen_length fs_data dataset.__init__
      (cfg_dnn "morgan" false false) "train" = Ok (self', fs')
    /\ self' !! "data_instances" = Some (DInstances instances)
    /\ length instances = 2%nat.
Proof.
  destruct_Ok (dataset.prepare gen_length gen_length fs_data dataset.__init__
                 (cfg_dnn "morgan" false false) "train") r E.
  destruct r as [self' fs'].
  destruct (prepare_one_instance_per_row gen_length gen_length fs_data
              dataset.__init__ self' (cfg_dnn "morgan" false false) "train"
              "data/processed/DNN-morgan/train.pt" "data/train.csv"
              {| df_smiles := Some ["CCO"; "CC"];
                 df_labels := Some labels_2x2;
                 df_masks := Some [CellNull; CellNull] |} 2 fs')
    as (instances & Hi & Hn & _); try reflexivity.
  - exists ["CCO"; "CC"], labels_2x2, [CellNull; CellNull]. repeat split.
  - exact E.
  - exists self', fs', instances. split; [reflexivity|]. split; assumption.
Defined.

(** ** [Dataset.read_csv]: the masks column *)

Lemma mapM_literal_eval_null cells :
  existsb dataset.isnull cells = true ->
  dataset.mapM dataset.literal_eval cells = Raise ValueError.
Proof.
  induction cells as [|c cells IH]; [discriminate|].
  simpl. destruct c; simpl; try reflexivity.
  intros H. rewrite (IH H). reflexivity.
Qed.

(** X12. The masks column is not optional for [read_csv]. A file without
    the column is refused with [AttributeError], and a column that is
    empty in some rows but not in all of them with [ValueError]; only a
    column that is empty in every row gives a dataset without masks. *)
Theorem read_csv_masks_column fs (self : gmap string dsval) file_path df smiles labels literals lbs :
  os.read fs file_path = Ok (FCsv df) ->
  df_smiles df = Some smiles ->
  df_labels df = Some labels ->
  dataset.mapM dataset.literal_eval labels = Ok literals ->
  asarray literals = Ok lbs ->
  match df_masks df with
  | None => dataset.read_csv fs self file_path = Raise AttributeError
  | Some cells =>
      if forallb dataset.isnull cells then
        dataset.read_csv fs self file_path
        = Ok (<["_masks" := DNone]>
              (<["_lbs" := DNd lbs]> (<["_smiles" := DStrs smiles]> self)))
      else if existsb dataset.isnull cells then
        dataset.read_csv fs self file_path = Raise ValueError
      else True
  end.
Proof.
  intros Hread Hs Hl Hlit Hlbs. unfold dataset.read_csv.
  rewrite Hread. cbn [mbind result_bind]. rewrite Hs, Hl.
  cbn [mbind result_bind dataset.column]. rewrite Hlit.
  cbn [mbind result_bind]. rewrite Hlbs. cbn [mbind result_bind].
  destruct (df_masks df) as [cells|]; [|reflexivity].
  cbn [mbind result_bind dataset.column].
  destruct (forallb dataset.isnull cells) eqn:Eall;
    cbn [negb mbind result_bind]; [reflexivity|].
  destruct (existsb dataset.isnull cells) eqn:Eany; [|exact I].
  rewrite (mapM_literal_eval_null _ Eany). reflexivity.
Qed.

Lemma read_csv_masks_column_witness :
  dataset.read_csv fs_data_no_masks_column dataset.__init__ "data/train.csv"
  = Raise AttributeError
  /\ dataset.read_csv fs_data_partial_masks dataset.__init__ "data/train.csv"
     = Raise ValueError.
Proof.
  split.
  - exact (read_csv_masks_column fs_data_no_masks_column dataset.__init__
             "data/train.csv" _ _ _ _ _ eq_refl eq_refl eq_refl eq_refl eq_refl).
  - exact (read_csv_masks_column fs_data_partial_masks dataset.__init__
             "data/train.csv" _ _ _ _ _ eq_refl eq_refl eq_refl eq_refl eq_refl).
Defined.

(** ** [Dataset.prepare] with a cache *)

Section CacheOnly.

Variable rdkit morgan : string -> result nd.

(** X13. When the cache exists and is not ignored, [prepare] reads the
    cache file and nothing else: on two file systems that hold the same
    cache it returns the same dataset, whether the CSV is there or not,
    and it creates no features. *)
Theorem prepare_reads_only_cache fs1 fs2 (self : gmap string dsval) cfg partition pp :
  partition ∈ ["train"; "valid"; "test"] ->
  dataset.preprocessed_path cfg partition = Ok pp ->
  uses_cache fs1 cfg pp = true ->
  uses_cache fs2 cfg pp = true ->
  os.read fs1 pp = os.read fs2 pp ->
  fst <$> dataset.prepare rdkit morgan fs1 self cfg partition
  = fst <$> dataset.prepare rdkit morgan fs2 self cfg partition.
Proof.
  intros Hp Hpp H1 H2 Hread.
  rewrite (prepare_hit rdkit morgan _ _ _ _ _ Hp Hpp H1).
  rewrite (prepare_hit rdkit morgan _ _ _ _ _ Hp Hpp H2).
  unfold dataset.load. rewrite Hread.
  destruct (os.read fs2 pp) as [[| | d|]|]; try reflexivity.
  cbn [mbind result_bind].
  destruct (dataset.get_instances _) as [[instances self2]|]; reflexivity.
Qed.

End CacheOnly.

(** A file system with the cache and no CSV, and the same with the
    CSV added: the same dataset. *)
Lemma prepare_reads_only_cache_witness :
  fst <$> dataset.prepare gen_length gen_length fs_cache_only dataset.__init__
            (cfg_dnn "rdkit" false false) "train"
  = fst <$> dataset.prepare gen_length gen_length
              (fs_cache_only ∪ fs_data) dataset.__init__
              (cfg_dnn "rdkit" false false) "train".
Proof.
  apply (prepare_reads_only_cache gen_length gen_length fs_cache_only
           (fs_cache_only ∪ fs_data) dataset.__init__
           (cfg_dnn "rdkit" false false) "train"
           "data/processed/DNN-rdkit/train.pt");
    try reflexivity.
  apply (bool_decide_unpack _). reflexivity.
Defined.

(** The validation split of [fs_data] has neither cache nor CSV. *)
Lemma prepare_missing_csv_witness :
  dataset.prepare gen_length gen_length fs_data dataset.__init__
    (cfg_dnn "rdkit" false false) "valid" = Raise FileNotFoundError.
Proof.
  apply (prepare_missing_csv gen_length gen_length fs_data dataset.__init__
           (cfg_dnn "rdkit" false false) "valid"
           "data/processed/DNN-rdkit/valid.pt" "data/valid.csv");
    try reflexivity.
  apply (bool_decide_unpack _). reflexivity.
Defined.
